(** * I2CHWC: a shallow embedding of the I2C hardware controller sketch

    The sketch [I2CHWC.ino] samples potentiometers, switches and rotary
    encoders, keeps one [Controller] record per input in the global table
    [g_anControllers], and serves the table to an I2C master through the
    callbacks [onI2Creceive] and [onI2Crequest].

    Integers are modelled as [Z] with the wrap-around of their C type
    written out: [u8] for [uint8_t], [u32] for [uint32_t] and [s32] for
    [int], which has 32 bits on the STM32 boards the sketch is written for
    ([Wire_slave.h], 12-bit converter).  The controller table is a list indexed
    with stdpp's lookup; an access outside the table is reported as
    [OutOfBounds], because the C++ program has no defined behaviour
    there. *)

From Stdlib Require Import ZArith Lia List Bool.
From stdpp Require Import base list.
Import ListNotations.
Local Open Scope Z_scope.

(** ** Machine integers *)

Definition u8 (z : Z) : Z := z mod 256.
Definition u32 (z : Z) : Z := z mod 4294967296.
Definition s32 (z : Z) : Z := (z + 2147483648) mod 4294967296 - 2147483648.
Definition s16 (z : Z) : Z := (z + 32768) mod 65536 - 32768.

(** [abs] of the C library on a 32-bit [int]. *)
Definition c_abs (z : Z) : Z := s32 (Z.abs z).

(** ** Configuration constants (the [#define]s and [static const]s) *)

Definition POTS : Z := 64.
Definition SWITCHES : Z := 40.
Definition ENCODERS : Z := 40.
Definition ADC_BITS : Z := 10.
Definition ROT_THRESHOLD : Z := 10.
Definition ROT_FAST_SCALE : Z := 10.
Definition DEBOUNCE_TIME : Z := 50.

Definition MAX_POTS : Z := 64.
Definition MAX_SWITCHES : Z := 40.
Definition MAX_ENCODERS : Z := 40.

Definition anValid : list Z := [0;1;1;0;1;0;0;1;1;0;0;1;0;1;1;0].
Definition AnaloguePins : list Z := [11;10;9;8;7;6;5;4].
Definition MatrixOutputPins : list Z := [3;17;18;19;20;21;22;23;24;25].
Definition SwitchInputPins : list Z := [26;27;28;29].
Definition EncoderInputPins : list Z := [30;31;32;14;13;12;0;1].

Definition ADC_MASK_BITS : Z := 12 - ADC_BITS.
Definition ADC_FILTER_SAMPLES : Z := Z.shiftr 32 ADC_MASK_BITS.
Definition POT_START : Z := u8 0.
Definition SWITCH_START : Z := u8 MAX_POTS.
Definition ENCODER_START : Z := u8 (MAX_POTS + MAX_SWITCHES).
Definition MAX_CONTROLLERS : Z := u8 (ENCODER_START + MAX_ENCODERS).

Definition LOW : Z := 0.
Definition HIGH : Z := 1.

(** ** Controllers *)

Definition CONTROLLER_TYPE_POT : Z := 0.
Definition CONTROLLER_TYPE_SWITCH : Z := 1.
Definition CONTROLLER_TYPE_ENCODER : Z := 2.

Record Controller : Type := mkController {
  dirty : bool;   (* true if value has changed since last I2C read *)
  value : Z;      (* int *)
  count : Z;      (* uint8_t, used to filter controller *)
  code : Z;       (* uint8_t, used to filter encoder controller *)
  type : Z;       (* uint8_t, see CONTROLLER_TYPE *)
  time : Z        (* uint32_t, time of last update *)
}.

Definition set_dirty (b : bool) (c : Controller) : Controller :=
  mkController b (value c) (count c) (code c) (type c) (time c).
Definition set_value (v : Z) (c : Controller) : Controller :=
  mkController (dirty c) v (count c) (code c) (type c) (time c).
Definition set_count (n : Z) (c : Controller) : Controller :=
  mkController (dirty c) (value c) n (code c) (type c) (time c).
Definition set_code (n : Z) (c : Controller) : Controller :=
  mkController (dirty c) (value c) (count c) n (type c) (time c).
Definition set_time (t : Z) (c : Controller) : Controller :=
  mkController (dirty c) (value c) (count c) (code c) (type c) t.

(** [Controller::getValue]: the value handed to the bus and the record as
    the call leaves it. *)
Definition getValue (c : Controller) : Z * Controller :=
  let nValue := value c in
  if type c =? CONTROLLER_TYPE_POT then
    (Z.shiftr nValue ADC_MASK_BITS, c)
  else if type c =? CONTROLLER_TYPE_ENCODER then
    (value c, set_value 0 c)
  else if type c =? CONTROLLER_TYPE_SWITCH then
    (value c, c)
  else
    (nValue, c).

(** ** Results, loops and table accesses *)

(** A call either returns, or it touched [g_anControllers] at an index
    outside the table. *)
Inductive Res (A : Type) : Type :=
  | Ok (a : A)
  | OutOfBounds (i : Z).
Arguments Ok {A} a.
Arguments OutOfBounds {A} i.

#[export] Instance Res_bind : MBind Res := fun A B k m =>
  match m with
  | Ok a => k a
  | OutOfBounds i => OutOfBounds i
  end.

(** What one iteration of a loop body does: fall through to the next
    iteration (also the effect of [continue]), leave the function with
    [return], or fault. *)
Inductive Ctl (S R : Type) : Type :=
  | Next (s : S)
  | Return (r : R)
  | Oob (i : Z).
Arguments Next {S R} s.
Arguments Return {S R} r.
Arguments Oob {S R} i.

(** [for (uint8_t i = start; i < bound; i += step)]: the body runs
    [loop_count start bound step] times when it does not leave early. *)
Definition loop_count (start bound step : Z) : nat :=
  Z.to_nat ((bound - start + step - 1) / step).

Fixpoint for_loop {S R : Type} (n : nat) (i step : Z)
    (body : Z -> S -> Ctl S R) (s : S) : Ctl S R :=
  match n with
  | O => Next s
  | Datatypes.S n' =>
      match body i s with
      | Next s' => for_loop n' (u8 (i + step)) step body s'
      | Return r => Return r
      | Oob j => Oob j
      end
  end.

(** [g_anControllers[i]] as an rvalue. *)
Definition ctl_at (regs : list Controller) (i : Z) : Res Controller :=
  if i <? 0 then OutOfBounds i
  else match regs !! Z.to_nat i with
       | Some c => Ok c
       | None => OutOfBounds i
       end.

(** [g_anControllers[i]] updated in place by [f]. *)
Definition ctl_update (regs : list Controller) (i : Z)
    (f : Controller -> Controller) : Res (list Controller) :=
  c ← ctl_at regs i; Ok (<[Z.to_nat i := f c]> regs).

(** An element of one of the constant pin tables. *)
Definition tbl_at (tbl : list Z) (i : Z) : Z := nth (Z.to_nat i) tbl 0.

Definition sizeof (tbl : list Z) : Z := Z.of_nat (length tbl).

(** ** Global state *)

Record State : Type := mkState {
  g_nLastRead : Z;                    (* uint8_t *)
  g_nI2Cregister : Z;                 (* int *)
  g_anControllers : list Controller;  (* Controller[MAX_CONTROLLERS] *)
  InterruptLevel : Z                  (* level written to InterruptPin *)
}.

Definition set_controllers (regs : list Controller) (s : State) : State :=
  mkState (g_nLastRead s) (g_nI2Cregister s) regs (InterruptLevel s).
Definition set_register (r : Z) (s : State) : State :=
  mkState (g_nLastRead s) r (g_anControllers s) (InterruptLevel s).
Definition set_lastRead (r : Z) (s : State) : State :=
  mkState r (g_nI2Cregister s) (g_anControllers s) (InterruptLevel s).
(** [digitalWrite(InterruptPin, level)]. *)
Definition writeInterrupt (level : Z) (s : State) : State :=
  mkState (g_nLastRead s) (g_nI2Cregister s) (g_anControllers s) level.

(** The table as global construction and [setup] leave it.  The level of
    the interrupt line before the first scan is not fixed by the sketch;
    [init_state] takes it low. *)
Definition init_controller (ty : Z) : Controller :=
  mkController false 0 0 0 ty 0.

Definition init_controllers : list Controller :=
  repeat (init_controller CONTROLLER_TYPE_POT) (Z.to_nat MAX_POTS)
  ++ repeat (init_controller CONTROLLER_TYPE_SWITCH) (Z.to_nat MAX_SWITCHES)
  ++ repeat (init_controller CONTROLLER_TYPE_ENCODER) (Z.to_nat MAX_ENCODERS).

Definition init_state : State := mkState 0 0 init_controllers LOW.

(** ** The change scan *)

(** Body shared by the two loops of [getDirty]. *)
Definition dirty_probe (regs : list Controller) (i : Z) (u : unit) : Ctl unit Z :=
  match ctl_at regs i with
  | Ok c => if dirty c then Return (u8 (i + 1)) else Next u
  | OutOfBounds j => Oob j
  end.

Definition getDirty (s : State) : Res (Z * State) :=
  let regs := g_anControllers s in
  match for_loop (loop_count (g_nLastRead s) MAX_CONTROLLERS 1)
                 (g_nLastRead s) 1 (dirty_probe regs) tt with
  | Return k => Ok (k, writeInterrupt LOW s)
  | Oob j => OutOfBounds j
  | Next _ =>
      match for_loop (loop_count 0 (g_nLastRead s) 1) 0 1 (dirty_probe regs) tt with
      | Return k => Ok (k, writeInterrupt LOW s)
      | Oob j => OutOfBounds j
      | Next _ => Ok (0, writeInterrupt HIGH s)
      end
  end.

(** ** The bus handlers *)

(** [sendValue]: the bytes handed to [Wire.write] and the new state. *)
Definition sendValue (controller : Z) (s : State) : Res (list Z * State) :=
  let controller := u8 controller in
  if (controller =? 0) || (controller >? MAX_CONTROLLERS) then Ok ([], s)
  else
    let controller := u8 (controller - 1) in
    c ← ctl_at (g_anControllers s) controller;
    let '(nValue, c') := getValue c in
    let anValue := [u8 (Z.land nValue 255); u8 (Z.shiftr nValue 8)] in
    let regs := <[Z.to_nat controller := set_dirty false c']> (g_anControllers s) in
    '(_, s') ← getDirty (set_controllers regs s);
    Ok (anValue, s').

Definition onI2Crequest (s : State) : Res (list Z * State) :=
  if negb (g_nI2Cregister s =? 0) then
    '(out, s') ← sendValue (g_nI2Cregister s) s;
    Ok (out, set_register 0 s')
  else
    '(k, s') ← getDirty s;
    Ok ([k], s').

(** [Wire.read()] on the receive buffer [rx]: the next byte, or -1. *)
Definition Wire_read (rx : list Z) : Z :=
  match rx with
  | [] => -1
  | b :: _ => b
  end.

Definition onI2Creceive (nBytes : Z) (rx : list Z) (s : State) : State :=
  if nBytes <? 0 then s
  else
    let r := Wire_read rx in
    set_lastRead (u8 r) (set_register r s).

(** ** The sampled world

    What the pins and the clock deliver during one pass of [loop].  The
    matrix row that is driven (and the multiplexer position) is an argument
    of the reading, so the writes to the matrix output pins themselves are
    not kept in the state.  Each call site of [millis] has a reading of its
    own, since the clock may advance between two calls. *)
Record Inputs : Type := mkInputs {
  analogRead : Z -> Z -> Z;       (* multiplexer position, pin *)
  digitalRead : Z -> Z -> Z;      (* driven matrix row, pin *)
  millis_pot : Z -> Z;            (* readAdc, at the stamp of pot nPot *)
  millis_switch_test : Z -> Z;    (* readSwitch, in the condition *)
  millis_switch_stamp : Z -> Z;   (* readSwitch, at the stamp *)
  millis_encoder : Z -> Z         (* readEncoder, lNow of encoder nEncoder *)
}.

(** ** Signal filters, one sample of one controller *)

(** The body of [readAdc] for one potentiometer. *)
Definition adcSample (nAnaRead now : Z) (c : Controller) : Controller :=
  if c_abs (s32 (nAnaRead - value c)) <? Z.shiftl 1 ADC_MASK_BITS then
    set_count 0 c
  else
    let c1 := set_count (u8 (count c + 1)) c in
    if count c1 <? ADC_FILTER_SAMPLES then c1
    else
      set_time now (set_dirty true (set_value nAnaRead (set_count 0 c1))).

(** The body of [readSwitch] for one switch; [now_test] and [now_stamp]
    are the two readings of [millis]. *)
Definition switchSample (nValue now_test now_stamp : Z) (c : Controller) : Controller :=
  if negb (nValue =? value c) && (now_test >? u32 (time c + DEBOUNCE_TIME)) then
    set_time now_stamp (set_dirty true (set_value nValue c))
  else c.

(** The body of [readEncoder] for one encoder.  [nDir] is the local of
    [readEncoder], declared before the loops, as the sample finds it; the
    result carries it on to the next encoder. *)
Definition encoderSample (nClk nData lNow : Z) (nDir : Z) (c : Controller)
    : Z * Controller :=
  if (nClk =? 0) && (code c =? 0) then (nDir, c)
  else
    let code1 := u8 (Z.shiftl (code c) 2) in
    let code2 := if negb (nData =? 0) then Z.lor code1 2 else code1 in
    let code3 := if negb (nClk =? 0) then Z.lor code2 1 else code2 in
    let c1 := set_code (Z.land code3 15) c in
    if negb (tbl_at anValid (code c1) =? 0) then
      let c2 := set_count (u8 (Z.shiftl (count c1) 4)) c1 in
      let c3 := set_count (Z.lor (count c2) (code c2)) c2 in
      let nDir1 :=
        if count c3 =? 212 then -1
        else if count c3 =? 23 then 1
        else nDir in
      if negb (nDir1 =? 0) then
        let c4 :=
          if lNow >=? u32 (time c3 + ROT_THRESHOLD)
          then set_value (s32 (value c3 + nDir1)) c3
          else set_value (s32 (value c3 + nDir1 * ROT_FAST_SCALE)) c3 in
        (nDir1, set_dirty true (set_code 0 (set_time lNow c4)))
      else (nDir1, c3)
    else (nDir, c1).

(** ** The acquisition passes *)

Definition lift_update {S R : Type} (r : Res (list Controller))
    (k : list Controller -> Ctl S R) : Ctl S R :=
  match r with
  | Ok regs => k regs
  | OutOfBounds j => Oob j
  end.

Definition readAdc (w : Inputs) (regs : list Controller) : Res (list Controller) :=
  match
    for_loop (loop_count 0 8 1) 0 1 (fun nMux regs =>
      for_loop (R := unit) (loop_count 0 8 1) 0 1 (fun nAdc regs =>
        let nPot := u8 (nMux + nAdc * 8) in
        if nPot <? POTS then
          let nAnaRead := analogRead w nMux (tbl_at AnaloguePins nAdc) in
          lift_update
            (ctl_update regs (POT_START + nPot) (adcSample nAnaRead (millis_pot w nPot)))
            Next
        else Next regs) regs) regs
  with
  | Next regs' => Ok regs'
  | Return _ => Ok regs
  | Oob j => OutOfBounds j
  end.

Definition readSwitch (w : Inputs) (regs : list Controller) : Res (list Controller) :=
  match
    for_loop (loop_count 0 (sizeof MatrixOutputPins) 1) 0 1 (fun nY regs =>
      for_loop (loop_count 0 (sizeof SwitchInputPins) 1) 0 1 (fun nX regs =>
        let nSwitch := s32 (nY * sizeof SwitchInputPins + nX) in
        if nSwitch <? SWITCHES then
          let nValue := digitalRead w nY (tbl_at SwitchInputPins nX) in
          lift_update
            (ctl_update regs (SWITCH_START + nSwitch)
               (switchSample nValue (millis_switch_test w nSwitch)
                                    (millis_switch_stamp w nSwitch)))
            Next
        else Return regs) regs) regs
  with
  | Next regs' => Ok regs'
  | Return regs' => Ok regs'
  | Oob j => OutOfBounds j
  end.

(** The loop state of [readEncoder] is the local [nDir] and the table. *)
Definition readEncoder (w : Inputs) (regs : list Controller) : Res (list Controller) :=
  match
    for_loop (loop_count 0 (sizeof MatrixOutputPins) 1) 0 1 (fun nY st =>
      for_loop (loop_count 0 (sizeof EncoderInputPins) 2) 0 2
        (fun nX '(nDir, regs) =>
          let nEncoder := s32 ((nY * sizeof EncoderInputPins + nX) / 2) in
          if nEncoder <? ENCODERS then
            let nClk := digitalRead w nY (tbl_at EncoderInputPins nX) in
            let nData := digitalRead w nY (tbl_at EncoderInputPins (nX + 1)) in
            match ctl_at regs (ENCODER_START + nEncoder) with
            | Ok c =>
                let '(nDir', c') :=
                  encoderSample nClk nData (millis_encoder w nEncoder) nDir c in
                Next (nDir', <[Z.to_nat (ENCODER_START + nEncoder) := c']> regs)
            | OutOfBounds j => Oob j
            end
          else Return regs) st) (0, regs)
  with
  | Next (_, regs') => Ok regs'
  | Return regs' => Ok regs'
  | Oob j => OutOfBounds j
  end.

(** One iteration of [loop]. *)
Definition loop (w : Inputs) (s : State) : Res State :=
  regs1 ← readAdc w (g_anControllers s);
  regs2 ← readSwitch w regs1;
  regs3 ← readEncoder w regs2;
  '(_, s') ← getDirty (set_controllers regs3 s);
  Ok s'.

(** ** Sequences of events *)

Inductive Event : Type :=
  | Receive (nBytes : Z) (rx : list Z)
  | Request
  | Pass (w : Inputs).

(** One event: the new state and the bytes written to the bus. *)
Definition step (e : Event) (s : State) : Res (list Z * State) :=
  match e with
  | Receive nBytes rx => Ok ([], onI2Creceive nBytes rx s)
  | Request => onI2Crequest s
  | Pass w => s' ← loop w s; Ok ([], s')
  end.

Fixpoint run (es : list Event) (s : State) : Res State :=
  match es with
  | [] => Ok s
  | e :: es' => '(_, s') ← step e s; run es' s'
  end.

(** ** Vocabulary of the statements *)

(** The table has the size it is declared with. *)
Definition table_ok (regs : list Controller) : Prop :=
  Z.of_nat (length regs) = MAX_CONTROLLERS.

(** The table has its size and the cursor is an index of it or the
    position just behind its last record. *)
Definition state_ok (s : State) : Prop :=
  table_ok (g_anControllers s) /\ 0 <= g_nLastRead s <= MAX_CONTROLLERS.

(** The order in which a change scan with cursor [cursor] is meant to
    look at the table: from the cursor to the end, then from the start up
    to the cursor. *)
Definition scan_order (cursor : nat) : list nat :=
  seq cursor (Z.to_nat MAX_CONTROLLERS - cursor) ++ seq 0 cursor.

Definition is_dirty_at (regs : list Controller) (i : nat) : bool :=
  match regs !! i with
  | Some c => dirty c
  | None => false
  end.

Definition first_dirty (regs : list Controller) (cursor : nat) : option nat :=
  find (is_dirty_at regs) (scan_order cursor).

(** A potentiometer fed a sequence of readings, one per pass; each reading
    comes with the clock value of its stamp. *)
Definition adcRun (samples : list (Z * Z)) (c : Controller) : Controller :=
  fold_left (fun c '(nAnaRead, now) => adcSample nAnaRead now c) samples c.

(** One ADC mask unit: the raw steps that one step of the reported
    resolution spans. *)
Definition mask_unit : Z := 2 ^ ADC_MASK_BITS.

(** A reading of the 12-bit converter. *)
Definition adc_reading (x : Z) : Prop := 0 <= x < 4096.

(** A receive event whose register address is 0 or the address of a
    controller. *)
Definition addresses_table (e : Event) : Prop :=
  match e with
  | Receive nBytes rx => nBytes < 0 \/ 0 <= Wire_read rx <= MAX_CONTROLLERS
  | Request => True
  | Pass _ => True
  end.

(** The two bytes of a response read as a little-endian 16-bit signed
    number. *)
Definition decode_le16 (bytes : list Z) : option Z :=
  match bytes with
  | [lo; hi] => Some (s16 (lo + 256 * hi))
  | _ => None
  end.

(** ** Concrete situations used below *)

(** Matrix row 0 driven: encoder 0 (pins 30 and 31) shows clock and data
    high, encoder 1 (pins 32 and 14) shows clock high and data low; every
    other input is low. *)
Definition two_encoders_world (now : Z) : Inputs :=
  mkInputs (fun _ _ => 0)
           (fun nY pin =>
              if (nY =? 0) && ((pin =? 30) || (pin =? 31) || (pin =? 32))
              then 1 else 0)
           (fun _ => now) (fun _ => now) (fun _ => now) (fun _ => now).

(** Encoder 0 is one step short of a clockwise cycle (history nibble 1,
    phase code 1); every other controller is as [setup] left it. *)
Definition encoder0_mid_turn : list Controller :=
  <[Z.to_nat ENCODER_START := mkController false 0 1 1 CONTROLLER_TYPE_ENCODER 0]>
    init_controllers.

(** Encoder 0 turned three slow steps counter-clockwise since it was last
    read; every other controller is as [setup] left it. *)
Definition encoder0_turned_back : list Controller :=
  <[Z.to_nat ENCODER_START := mkController true (-3) 0 0 CONTROLLER_TYPE_ENCODER 0]>
    init_controllers.

(** A switch that changed to 0 ten milliseconds before the 32-bit clock
    wraps. *)
Definition switch_before_wrap : Controller :=
  mkController false 0 0 0 CONTROLLER_TYPE_SWITCH 4294967286.

(** ** Vocabulary for the acquisition passes *)

(** What a filter may do to a record between two bus reads: the kind stays
    and a pending change stays pending. *)
Definition keeps_kind_and_change (c c' : Controller) : Prop :=
  type c' = type c /\ (dirty c = true -> dirty c' = true).

(** A pass that works on the records [lo, hi) only: every record keeps its
    kind and its pending change, and the records outside the range are
    untouched. *)
Definition pass_effect (lo hi : nat) (regs regs' : list Controller) : Prop :=
  Forall2 keeps_kind_and_change regs regs' /\
  forall i : nat, (i < lo \/ hi <= i)%nat -> regs' !! i = regs !! i.

(** Some record of the table is waiting to be read. *)
Definition some_dirty (regs : list Controller) : Prop :=
  exists (i : nat) (c : Controller), regs !! i = Some c /\ dirty c = true.

(** ** The master's side of the protocol

    The sketch has no master in it; this is the exchange its handlers are
    written for, built from [onI2Crequest] and [onI2Creceive] alone: ask
    which register changed and, unless the answer is 0, select that
    register and read its two bytes. *)
Definition serve_one (s : State) : Res (Z * list Z * State) :=
  '(report, s1) ← onI2Crequest s;
  match report with
  | [k] =>
      if k =? 0 then Ok (0, [], s1)
      else
        '(bytes, s2) ← onI2Crequest (onI2Creceive 1 [k] s1);
        Ok (k, bytes, s2)
  | _ => Ok (0, [], s1)
  end.

(** At most [n] such exchanges, stopping at the first answer 0; the result
    lists the registers read, in the order they were read. *)
Fixpoint serve (n : nat) (s : State) : Res (list Z * State) :=
  match n with
  | O => Ok ([], s)
  | Datatypes.S n' =>
      '(k, _, s1) ← serve_one s;
      if k =? 0 then Ok ([], s1)
      else '(ks, s2) ← serve n' s1; Ok (k :: ks, s2)
  end.

(** [k] is the address of a dirty record. *)
Definition dirty_address (regs : list Controller) (k : Z) : Prop :=
  exists c, 1 <= k /\ regs !! Z.to_nat (k - 1) = Some c /\ dirty c = true.

(** How many records are waiting to be read. *)
Definition dirty_count (regs : list Controller) : nat :=
  length (filter (fun c => dirty c = true) regs).

(** ** Vocabulary for the filters *)

(** A potentiometer record between two passes: the stored value is a
    reading of the converter and the run-length counter is short of the
    threshold. *)
Definition pot_ok (c : Controller) : Prop :=
  adc_reading (value c) /\ 0 <= count c < ADC_FILTER_SAMPLES.

(** A switch fed a sequence of samples, one per pass: the level and the two
    readings of the clock. *)
Definition switchRun (samples : list (Z * Z * Z)) (c : Controller) : Controller :=
  fold_left (fun c '(nValue, now_test, now_stamp) =>
               switchSample nValue now_test now_stamp c) samples c.

(** An encoder fed a sequence of samples, one per pass: clock line, data
    line and the clock reading.  No direction is left over from another
    encoder: [nDir] is 0 when the encoder is sampled. *)
Definition encoderRun (samples : list (Z * Z * Z)) (c : Controller) : Controller :=
  fold_left (fun c '(nClk, nData, lNow) =>
               snd (encoderSample nClk nData lNow 0 c)) samples c.

(** The step an encoder makes when it completes a cycle at clock reading
    [lNow]. *)
Definition tick (lNow : Z) (c : Controller) : Z :=
  if lNow >=? u32 (time c + ROT_THRESHOLD) then 1 else ROT_FAST_SCALE.

(** ** Initialisation *)

Definition set_type (ty : Z) (c : Controller) : Controller :=
  mkController (dirty c) (value c) (count c) (code c) ty (time c).

(** The table before [setup]: static storage is zeroed and the member
    initialisers of [Controller] run; [type] and [time] have none and stay
    0. *)
Definition power_on_controllers : list Controller :=
  repeat (mkController false 0 0 0 0 0) (Z.to_nat MAX_CONTROLLERS).

(** [for (int i = start; ...; ++i)] with a body that cannot leave early;
    [n] is the number of iterations. *)
Fixpoint for_int {S : Type} (n : nat) (i : Z) (body : Z -> S -> Res S) (s : S)
    : Res S :=
  match n with
  | O => Ok s
  | Datatypes.S n' => s' ← body i s; for_int n' (s32 (i + 1)) body s'
  end.

(** The part of [setup] that configures the controller objects.  The
    calls that configure the bus and the pins have no counterpart in the
    state. *)
Definition setup (regs : list Controller) : Res (list Controller) :=
  regs1 ← for_int (loop_count POT_START (POT_START + MAX_POTS) 1) POT_START
             (fun i regs => ctl_update regs i (set_type CONTROLLER_TYPE_POT)) regs;
  regs2 ← for_int (loop_count SWITCH_START (SWITCH_START + MAX_SWITCHES) 1)
             SWITCH_START
             (fun i regs => ctl_update regs i (set_type CONTROLLER_TYPE_SWITCH)) regs1;
  for_int (loop_count ENCODER_START (ENCODER_START + MAX_ENCODERS) 1) ENCODER_START
    (fun i regs => ctl_update regs i (set_type CONTROLLER_TYPE_ENCODER)) regs2.

(** The kind [setup] gives to the record at index [i]. *)
Definition kind_of_index (i : nat) : Z :=
  if (i <? Z.to_nat SWITCH_START)%nat then CONTROLLER_TYPE_POT
  else if (i <? Z.to_nat ENCODER_START)%nat then CONTROLLER_TYPE_SWITCH
  else CONTROLLER_TYPE_ENCODER.

(** The dirty records among the indices [order], in that order. *)
Definition dirty_in_order (regs : list Controller) (order : list nat) : list nat :=
  filter (fun j => is_dirty_at regs j = true) order.

(** Potentiometer 3, switch 6 and encoder 6 have changed since they were
    last read; every other controller is as [setup] left it. *)
Definition three_changes : list Controller :=
  <[3%nat := mkController true 2048 0 0 CONTROLLER_TYPE_POT 40]>
    (<[70%nat := mkController true 1 0 0 CONTROLLER_TYPE_SWITCH 60]>
       (<[110%nat := mkController true (-2) 23 0 CONTROLLER_TYPE_ENCODER 80]>
          init_controllers)).

(** * Properties *)

(** Comparisons between closed numerals. *)
Ltac closed_arith :=
  vm_compute; repeat split; solve [reflexivity | discriminate].

(** ** Machine integers *)

Lemma u8_small (z : Z) : 0 <= z < 256 -> u8 z = z.
Proof. intros H. unfold u8. apply Z.mod_small. lia. Qed.

Lemma u8_range (z : Z) : 0 <= u8 z < 256.
Proof. unfold u8. apply Z.mod_pos_bound. lia. Qed.

Lemma u32_small (z : Z) : 0 <= z < 4294967296 -> u32 z = z.
Proof. intros H. unfold u32. apply Z.mod_small. lia. Qed.

Lemma s32_small (z : Z) : -2147483648 <= z < 2147483648 -> s32 z = z.
Proof. intros H. unfold s32. rewrite Z.mod_small; lia. Qed.

Lemma s16_small (z : Z) : -32768 <= z < 32768 -> s16 z = z.
Proof. intros H. unfold s16. rewrite Z.mod_small; lia. Qed.

Lemma c_abs_small (z : Z) :
  -2147483648 < z < 2147483648 -> c_abs (s32 z) = Z.abs z.
Proof.
  intros H. unfold c_abs. rewrite (s32_small z) by lia.
  apply s32_small. lia.
Qed.

Lemma constants :
  MAX_CONTROLLERS = 144 /\ ENCODER_START = 104 /\ SWITCH_START = 64 /\
  POT_START = 0 /\ ADC_MASK_BITS = 2 /\ ADC_FILTER_SAMPLES = 8.
Proof. repeat split; reflexivity. Qed.

(** The two bytes of [sendValue] are the low 16 bits of the value, least
    significant byte first. *)
Lemma le16_bytes (v : Z) :
  u8 (Z.land v 255) = v mod 256 /\
  u8 (Z.shiftr v 8) = (v / 256) mod 256 /\
  decode_le16 [u8 (Z.land v 255); u8 (Z.shiftr v 8)] = Some (s16 v).
Proof.
  assert (H1 : Z.land v 255 = v mod 256).
  { change 255 with (Z.ones 8). rewrite Z.land_ones by lia. reflexivity. }
  assert (H2 : Z.shiftr v 8 = v / 256).
  { rewrite Z.shiftr_div_pow2 by lia. reflexivity. }
  rewrite H1, H2. unfold u8. rewrite Z.mod_mod by lia.
  repeat split. unfold decode_le16, s16. f_equal. f_equal.
  rewrite (Z.div_mod v 256) at 3 by lia.
  rewrite (Z.div_mod (v / 256) 256) at 2 by lia.
  replace (256 * (256 * (v / 256 / 256) + v / 256 mod 256) + v mod 256 + 32768)
    with ((v mod 256 + 256 * (v / 256 mod 256) + 32768) + (v / 256 / 256) * 65536)
    by lia.
  rewrite Z.mod_add by lia. reflexivity.
Qed.

(** ** The read transform *)

Lemma getValue_pot (c : Controller) :
  type c = CONTROLLER_TYPE_POT ->
  getValue c = (Z.shiftr (value c) ADC_MASK_BITS, c).
Proof. intros H. unfold getValue. rewrite H. reflexivity. Qed.

Lemma getValue_switch (c : Controller) :
  type c = CONTROLLER_TYPE_SWITCH -> getValue c = (value c, c).
Proof. intros H. unfold getValue. rewrite H. reflexivity. Qed.

Lemma getValue_encoder (c : Controller) :
  type c = CONTROLLER_TYPE_ENCODER -> getValue c = (value c, set_value 0 c).
Proof. intros H. unfold getValue. rewrite H. reflexivity. Qed.

Lemma getValue_record (c : Controller) :
  snd (getValue c) =
  if type c =? CONTROLLER_TYPE_ENCODER then set_value 0 c else c.
Proof.
  unfold getValue.
  destruct (type c =? CONTROLLER_TYPE_POT) eqn:Hp.
  - apply Z.eqb_eq in Hp. rewrite Hp. reflexivity.
  - destruct (type c =? CONTROLLER_TYPE_ENCODER); [reflexivity|].
    destruct (type c =? CONTROLLER_TYPE_SWITCH); reflexivity.
Qed.

Lemma getValue_keeps_type (c : Controller) : type (snd (getValue c)) = type c.
Proof.
  rewrite getValue_record. destruct (type c =? CONTROLLER_TYPE_ENCODER); reflexivity.
Qed.

(** C10. The read transform of a potentiometer or a switch returns the
    record as it found it, every field included; the transform of an
    encoder returns the record with [value] set to 0 and the other five
    fields as they were. *)
Theorem getValue_frame (c : Controller) :
  snd (getValue c) =
  if type c =? CONTROLLER_TYPE_ENCODER
  then mkController (dirty c) 0 (count c) (code c) (type c) (time c)
  else c.
Proof. rewrite getValue_record. reflexivity. Qed.

(** C7. Reading an encoder hands out the stored value and leaves 0 in its
    place, so reading it again at once hands out 0. *)
Theorem encoder_read_resets (c : Controller) :
  type c = CONTROLLER_TYPE_ENCODER ->
  fst (getValue c) = value c /\
  value (snd (getValue c)) = 0 /\
  fst (getValue (snd (getValue c))) = 0.
Proof.
  intros H. rewrite (getValue_encoder c H). cbn [fst snd].
  rewrite getValue_encoder by exact H. cbn. auto.
Qed.

Lemma encoder_read_resets_witness :
  fst (getValue (mkController true 7 0 0 CONTROLLER_TYPE_ENCODER 0)) = 7 /\
  value (snd (getValue (mkController true 7 0 0 CONTROLLER_TYPE_ENCODER 0))) = 0 /\
  fst (getValue (snd (getValue (mkController true 7 0 0 CONTROLLER_TYPE_ENCODER 0)))) = 0.
Proof.
  apply (encoder_read_resets (mkController true 7 0 0 CONTROLLER_TYPE_ENCODER 0)).
  reflexivity.
Defined.

(** ** The change scan *)

Lemma loop_count_1 (a b : Z) : loop_count a b 1 = Z.to_nat (b - a).
Proof. unfold loop_count. rewrite Z.div_1_r. f_equal. lia. Qed.

Lemma ctl_at_in (regs : list Controller) (i : Z) :
  0 <= i < Z.of_nat (length regs) ->
  exists c, regs !! Z.to_nat i = Some c /\ ctl_at regs i = Ok c.
Proof.
  intros H. unfold ctl_at.
  destruct (Z.ltb_spec i 0) as [Hneg|_]; [lia|].
  destruct (lookup_lt_is_Some_2 regs (Z.to_nat i)) as [c Hc]; [lia|].
  exists c. rewrite Hc. auto.
Qed.

Lemma ctl_at_out (regs : list Controller) (i : Z) :
  Z.of_nat (length regs) <= i -> ctl_at regs i = OutOfBounds i.
Proof.
  intros H. unfold ctl_at.
  destruct (Z.ltb_spec i 0) as [Hneg|_]; [lia|].
  rewrite lookup_ge_None_2 by lia. reflexivity.
Qed.

Lemma find_app {A : Type} (f : A -> bool) (l1 l2 : list A) :
  find f (l1 ++ l2) =
  match find f l1 with
  | Some x => Some x
  | None => find f l2
  end.
Proof.
  induction l1 as [|a l1 IH]; [reflexivity|].
  cbn. destruct (f a); [reflexivity | exact IH].
Qed.

(** One loop of [getDirty] over [n] consecutive indices inside the table
    returns the address of the first dirty one. *)
Lemma probe_loop (regs : list Controller) (n : nat) :
  forall i : Z,
    0 <= i ->
    i + Z.of_nat n <= Z.of_nat (length regs) ->
    i + Z.of_nat n <= 255 ->
    for_loop n i 1 (dirty_probe regs) tt =
    match find (is_dirty_at regs) (seq (Z.to_nat i) n) with
    | Some j => Return (Z.of_nat j + 1)
    | None => Next tt
    end.
Proof.
  induction n as [|n IH]; intros i Hi Hlen Hmax; [reflexivity|].
  cbn [for_loop seq find]. unfold dirty_probe at 1.
  destruct (ctl_at_in regs i) as [c [Hc Hat]]; [lia|].
  rewrite Hat. unfold is_dirty_at at 1. rewrite Hc.
  destruct (dirty c).
  - rewrite u8_small by lia. rewrite Z2Nat.id by lia. reflexivity.
  - rewrite u8_small by lia. rewrite IH by lia.
    replace (Z.to_nat (i + 1)) with (S (Z.to_nat i)) by lia. reflexivity.
Qed.

(** A loop of [getDirty] that finds every record up to the end of the
    table clean and goes on leaves the table. *)
Lemma probe_loop_overrun (regs : list Controller) (n : nat) :
  forall i : Z,
    0 <= i <= Z.of_nat (length regs) ->
    Z.of_nat (length regs) < i + Z.of_nat n <= 255 ->
    (forall c, c ∈ regs -> dirty c = false) ->
    for_loop n i 1 (dirty_probe regs) tt = Oob (Z.of_nat (length regs)).
Proof.
  induction n as [|n IH]; intros i Hi Hn Hclean; [lia|].
  cbn [for_loop]. unfold dirty_probe at 1.
  destruct (Z.eq_dec i (Z.of_nat (length regs))) as [Heq|Hne].
  - rewrite ctl_at_out by lia. rewrite Heq. reflexivity.
  - destruct (ctl_at_in regs i) as [c [Hc Hat]]; [lia|].
    rewrite Hat. rewrite (Hclean c) by (eapply list_elem_of_lookup_2; exact Hc).
    rewrite u8_small by lia. apply IH; [lia | lia | exact Hclean].
Qed.

(** With the cursor inside the table or just behind its last record, the
    scan returns, reports the first dirty record of [scan_order] by its
    1-based address (0 when all are clean), and drives the interrupt line
    low exactly when it found one. *)
Lemma getDirty_correct (s : State) :
  table_ok (g_anControllers s) ->
  0 <= g_nLastRead s <= MAX_CONTROLLERS ->
  getDirty s =
  Ok (match first_dirty (g_anControllers s) (Z.to_nat (g_nLastRead s)) with
      | Some j => (Z.of_nat j + 1, writeInterrupt LOW s)
      | None => (0, writeInterrupt HIGH s)
      end).
Proof.
  intros Hok Hcur. unfold table_ok in Hok.
  assert (HM : MAX_CONTROLLERS = 144) by reflexivity.
  unfold getDirty, first_dirty, scan_order.
  rewrite !loop_count_1, find_app.
  rewrite probe_loop by lia.
  replace (Z.to_nat MAX_CONTROLLERS - Z.to_nat (g_nLastRead s))%nat
    with (Z.to_nat (MAX_CONTROLLERS - g_nLastRead s)) by lia.
  destruct (find _ (seq (Z.to_nat (g_nLastRead s)) _)) as [j|]; [reflexivity|].
  rewrite (probe_loop _ _ 0) by lia.
  replace (Z.to_nat (g_nLastRead s - 0)) with (Z.to_nat (g_nLastRead s)) by lia.
  change (Z.to_nat 0) with 0%nat.
  destruct (find _ (seq 0 _)) as [j|]; reflexivity.
Qed.

(** The scan order names every index of the table exactly once. *)
Lemma scan_order_NoDup (cursor : nat) :
  (cursor <= Z.to_nat MAX_CONTROLLERS)%nat -> NoDup (scan_order cursor).
Proof.
  intros Hc. unfold scan_order. apply NoDup_app. split; [apply NoDup_seq|].
  split; [|apply NoDup_seq].
  intros x Hx Hx'. apply elem_of_seq in Hx. apply elem_of_seq in Hx'. lia.
Qed.

Lemma scan_order_complete (cursor i : nat) :
  (cursor <= Z.to_nat MAX_CONTROLLERS)%nat ->
  i ∈ scan_order cursor <-> (i < Z.to_nat MAX_CONTROLLERS)%nat.
Proof.
  intros Hc. unfold scan_order. rewrite elem_of_app, !elem_of_seq. lia.
Qed.

Lemma first_dirty_Some (regs : list Controller) (cursor j : nat) :
  first_dirty regs cursor = Some j ->
  exists c, regs !! j = Some c /\ dirty c = true.
Proof.
  unfold first_dirty. intros H. apply find_some in H as [_ H].
  unfold is_dirty_at in H. destruct (regs !! j) as [c|]; [eauto | discriminate].
Qed.

Lemma first_dirty_None (regs : list Controller) (cursor : nat) :
  table_ok regs ->
  (cursor <= Z.to_nat MAX_CONTROLLERS)%nat ->
  first_dirty regs cursor = None ->
  forall c, c ∈ regs -> dirty c = false.
Proof.
  unfold first_dirty, table_ok. intros Hok Hc H c Hin.
  apply list_elem_of_lookup_1 in Hin as [i Hi].
  pose proof (lookup_lt_Some _ _ _ Hi) as Hlt.
  pose proof (find_none _ _ H i) as Hn.
  unfold is_dirty_at in Hn. rewrite Hi in Hn. apply Hn.
  apply list_elem_of_In, scan_order_complete; lia.
Qed.

(** A scan whose cursor is beyond the table and that meets no dirty record
    reads [g_anControllers[MAX_CONTROLLERS]]. *)
Lemma getDirty_overrun (s : State) :
  table_ok (g_anControllers s) ->
  MAX_CONTROLLERS < g_nLastRead s <= 255 ->
  (forall c, c ∈ g_anControllers s -> dirty c = false) ->
  getDirty s = OutOfBounds MAX_CONTROLLERS.
Proof.
  intros Hok Hcur Hclean. unfold table_ok in Hok.
  assert (HM : MAX_CONTROLLERS = 144) by reflexivity.
  unfold getDirty. rewrite !loop_count_1.
  replace (Z.to_nat (MAX_CONTROLLERS - g_nLastRead s)) with 0%nat by lia.
  cbn [for_loop].
  rewrite (probe_loop_overrun _ _ 0) by (try exact Hclean; lia).
  rewrite Hok. reflexivity.
Qed.

(** C2. The scan is asked for with the cursor at 200, where a receive of
    the address byte 200 has put it, over a table that is all clean: in
    place of reporting 0 it reads [g_anControllers[144]], one record
    behind the table. *)
Theorem getDirty_cursor_beyond_table :
  g_nLastRead (onI2Creceive 1 [200] init_state) = 200 /\
  first_dirty (g_anControllers (onI2Creceive 1 [200] init_state)) 0 = None /\
  getDirty (onI2Creceive 1 [200] init_state) = OutOfBounds MAX_CONTROLLERS.
Proof. repeat split; vm_compute; reflexivity. Qed.

(** ** The bus handlers *)

(** The value response: what [onI2Crequest] does when the selected
    register is the address of a controller. *)
Lemma onI2Crequest_value (s : State) (R : Z) (c : Controller) :
  table_ok (g_anControllers s) ->
  0 <= g_nLastRead s <= MAX_CONTROLLERS ->
  1 <= R <= MAX_CONTROLLERS ->
  g_nI2Cregister s = R ->
  g_anControllers s !! Z.to_nat (R - 1) = Some c ->
  exists k s1,
    getDirty (set_controllers
                (<[Z.to_nat (R - 1) := set_dirty false (snd (getValue c))]>
                   (g_anControllers s)) s) = Ok (k, s1) /\
    g_anControllers s1 =
      <[Z.to_nat (R - 1) := set_dirty false (snd (getValue c))]> (g_anControllers s) /\
    g_nLastRead s1 = g_nLastRead s /\
    k <> R /\
    onI2Crequest s =
      Ok ([fst (getValue c) mod 256; (fst (getValue c) / 256) mod 256],
          set_register 0 s1).
Proof.
  intros Hok Hcur HR Hsel Hc.
  assert (HM : MAX_CONTROLLERS = 144) by reflexivity.
  pose proof (le16_bytes (fst (getValue c))) as [Hlo [Hhi _]].
  assert (Hlen : (Z.to_nat (R - 1) < length (g_anControllers s))%nat).
  { apply lookup_lt_Some in Hc. exact Hc. }
  set (regs' := <[Z.to_nat (R - 1) := set_dirty false (snd (getValue c))]>
                  (g_anControllers s)).
  assert (Hscan : exists k s1, getDirty (set_controllers regs' s) = Ok (k, s1) /\
                    g_anControllers s1 = regs' /\
                    g_nLastRead s1 = g_nLastRead s /\ k <> R).
  { rewrite getDirty_correct.
    - cbn [g_anControllers g_nLastRead set_controllers].
      destruct (first_dirty regs' _) as [j|] eqn:Hfirst; eexists _, _;
        (split; [reflexivity|]); (split; [reflexivity|]);
        (split; [reflexivity|]); [|lia].
      apply first_dirty_Some in Hfirst as [c0 [Hj Hd]]. intros Hk.
      replace j with (Z.to_nat (R - 1)) in Hj by lia.
      unfold regs' in Hj. rewrite list_lookup_insert_eq in Hj by exact Hlen.
      injection Hj as <-. discriminate Hd.
    - unfold table_ok, regs'. cbn. rewrite length_insert. exact Hok.
    - exact Hcur. }
  destruct Hscan as [k [s1 [Hscan [Hregs [Hlast Hk]]]]].
  exists k, s1. repeat split; try assumption.
  unfold onI2Crequest. rewrite Hsel.
  destruct (Z.eqb_spec R 0) as [H0|_]; [lia|]. cbn [negb].
  unfold sendValue. rewrite (u8_small R) by lia.
  destruct (Z.eqb_spec R 0) as [H0|_]; [lia|].
  destruct (Z.gtb_spec R MAX_CONTROLLERS) as [Hgt|_]; [lia|]. cbn [orb].
  rewrite (u8_small (R - 1)) by lia.
  destruct (ctl_at_in (g_anControllers s) (R - 1)) as [c0 [Hc0 Hat]]; [lia|].
  rewrite Hat. rewrite Hc in Hc0. injection Hc0 as <-. cbn [mbind Res_bind].
  rewrite <- Hlo, <- Hhi. unfold regs' in Hscan.
  destruct (getValue c) as [nValue c1]. cbn [fst snd] in *.
  rewrite Hscan. reflexivity.
Qed.

(** C1. A request with register [R] selected, [R] the address of
    controller [c]: the response is the two bytes of the read transform
    of [c], least significant first (they decode to the value as a signed
    16-bit number); the record of [c] is replaced by the record the
    transform leaves, with [dirty] false; the selection is cleared; the
    state is the one the change scan leaves on the updated table; and the
    address that scan reports is not [R]. *)
Theorem onI2Crequest_selected (s : State) (R : Z) (c : Controller) :
  table_ok (g_anControllers s) ->
  0 <= g_nLastRead s <= MAX_CONTROLLERS ->
  1 <= R <= MAX_CONTROLLERS ->
  g_nI2Cregister s = R ->
  g_anControllers s !! Z.to_nat (R - 1) = Some c ->
  let v := fst (getValue c) in
  let regs' :=
    <[Z.to_nat (R - 1) := set_dirty false (snd (getValue c))]> (g_anControllers s) in
  exists k s1 s',
    onI2Crequest s = Ok ([v mod 256; (v / 256) mod 256], s') /\
    decode_le16 [v mod 256; (v / 256) mod 256] = Some (s16 v) /\
    v = (if type c =? CONTROLLER_TYPE_POT
         then Z.shiftr (value c) ADC_MASK_BITS else value c) /\
    g_anControllers s' = regs' /\
    regs' !! Z.to_nat (R - 1) = Some (set_dirty false (snd (getValue c))) /\
    g_nI2Cregister s' = 0 /\
    getDirty (set_controllers regs' s) = Ok (k, s1) /\
    s' = set_register 0 s1 /\
    k <> R.
Proof.
  intros Hok Hcur HR Hsel Hc v regs'.
  destruct (onI2Crequest_value s R c Hok Hcur HR Hsel Hc)
    as [k [s1 [Hscan [Hregs [_ [Hk Hreq]]]]]].
  pose proof (le16_bytes v) as [Hlo [Hhi Hdec]].
  exists k, s1, (set_register 0 s1). repeat split.
  - exact Hreq.
  - rewrite <- Hlo, <- Hhi. exact Hdec.
  - unfold v, getValue.
    destruct (type c =? CONTROLLER_TYPE_POT); [reflexivity|].
    destruct (type c =? CONTROLLER_TYPE_ENCODER); [reflexivity|].
    destruct (type c =? CONTROLLER_TYPE_SWITCH); reflexivity.
  - exact Hregs.
  - unfold regs'. apply list_lookup_insert_eq.
    apply lookup_lt_Some in Hc. exact Hc.
  - exact Hscan.
  - exact Hk.
Qed.

Lemma onI2Crequest_selected_witness :
  exists k s1 s',
    onI2Crequest (mkState 105 105 encoder0_turned_back LOW) = Ok ([253; 255], s') /\
    decode_le16 [253; 255] = Some (-3) /\
    -3 = -3 /\
    g_anControllers s' = init_controllers /\
    init_controllers !! 104%nat = Some (init_controller CONTROLLER_TYPE_ENCODER) /\
    g_nI2Cregister s' = 0 /\
    getDirty (set_controllers init_controllers (mkState 105 105 encoder0_turned_back LOW))
      = Ok (k, s1) /\
    s' = set_register 0 s1 /\
    k <> 105.
Proof.
  apply (onI2Crequest_selected (mkState 105 105 encoder0_turned_back LOW) 105
           (mkController true (-3) 0 0 CONTROLLER_TYPE_ENCODER 0)).
  - reflexivity.
  - vm_compute. split; discriminate.
  - vm_compute. split; discriminate.
  - reflexivity.
  - reflexivity.
Defined.

(** Two value reads of the same encoder in a row, as the master performs
    them: the first response carries the stored value, the second 0. *)
Lemma encoder_read_twice_on_bus (s : State) (R : Z) (c : Controller) :
  table_ok (g_anControllers s) ->
  1 <= R <= MAX_CONTROLLERS ->
  g_anControllers s !! Z.to_nat (R - 1) = Some c ->
  type c = CONTROLLER_TYPE_ENCODER ->
  exists s1 s2,
    onI2Crequest (onI2Creceive 1 [R] s) =
      Ok ([value c mod 256; (value c / 256) mod 256], s1) /\
    onI2Crequest (onI2Creceive 1 [R] s1) = Ok ([0; 0], s2).
Proof.
  intros Hok HR Hc Hty. assert (HM : MAX_CONTROLLERS = 144) by reflexivity.
  assert (Hrecv : forall s0, onI2Creceive 1 [R] s0 =
                    mkState R R (g_anControllers s0) (InterruptLevel s0)).
  { intros s0. unfold onI2Creceive. cbn. rewrite u8_small by lia. reflexivity. }
  assert (Hlen : (Z.to_nat (R - 1) < length (g_anControllers s))%nat).
  { apply lookup_lt_Some in Hc. exact Hc. }
  assert (Hcur : 0 <= R <= MAX_CONTROLLERS) by lia.
  destruct (onI2Crequest_value (mkState R R (g_anControllers s) (InterruptLevel s))
              R c Hok Hcur HR eq_refl Hc)
    as [k [s1 [_ [Hregs [_ [_ Hreq]]]]]].
  rewrite (getValue_encoder c Hty) in Hreq, Hregs.
  cbn [fst snd g_anControllers] in Hreq, Hregs.
  assert (Hok1 : table_ok (g_anControllers s1)).
  { rewrite Hregs. unfold table_ok. rewrite length_insert. exact Hok. }
  assert (Hc1 : g_anControllers s1 !! Z.to_nat (R - 1) =
                Some (set_dirty false (set_value 0 c))).
  { rewrite Hregs. apply list_lookup_insert_eq. exact Hlen. }
  destruct (onI2Crequest_value
              (mkState R R (g_anControllers s1) (InterruptLevel s1))
              R (set_dirty false (set_value 0 c)) Hok1 Hcur HR eq_refl Hc1)
    as [k2 [s2 [_ [_ [_ [_ Hreq2]]]]]].
  rewrite getValue_encoder in Hreq2 by exact Hty.
  cbn [fst snd value set_value set_dirty] in Hreq2.
  exists (set_register 0 s1), (set_register 0 s2).
  rewrite !Hrecv. split; [exact Hreq | exact Hreq2].
Qed.

(** C5. A receive of an address byte above the table size followed by a
    request: the request returns without touching the table at all, so
    without an access outside it; nothing is written to the bus; the
    controller table is the one from before the receive; and no register
    is selected afterwards. *)
Theorem out_of_range_register (s : State) (nBytes a : Z) (rest : list Z) :
  0 <= nBytes ->
  MAX_CONTROLLERS < a <= 255 ->
  onI2Crequest (onI2Creceive nBytes (a :: rest) s) =
  Ok ([], mkState a 0 (g_anControllers s) (InterruptLevel s)).
Proof.
  intros Hn Ha. assert (HM : MAX_CONTROLLERS = 144) by reflexivity.
  unfold onI2Creceive. destruct (Z.ltb_spec nBytes 0) as [Hneg|_]; [lia|].
  cbn [Wire_read]. unfold onI2Crequest. cbn [set_lastRead set_register g_nI2Cregister].
  destruct (Z.eqb_spec a 0) as [H0|_]; [lia|]. cbn [negb].
  unfold sendValue. rewrite !(u8_small a) by lia.
  destruct (Z.eqb_spec a 0) as [H0|_]; [lia|].
  destruct (Z.gtb_spec a MAX_CONTROLLERS) as [_|Hle]; [|lia].
  reflexivity.
Qed.

Lemma out_of_range_register_witness :
  onI2Crequest (onI2Creceive 1 [145] init_state) =
  Ok ([], mkState 145 0 init_controllers LOW).
Proof.
  apply (out_of_range_register init_state 1 145 []).
  - lia.
  - split; [reflexivity | discriminate].
Defined.

(** C9. A request with no register selected.  Whenever it returns, it has
    written one byte, and the controller table, the cursor and the (empty)
    selection are what they were; it does return whenever the table has
    its declared size and the cursor is not beyond it. *)
Theorem onI2Crequest_idle_frame (s : State) :
  g_nI2Cregister s = 0 ->
  (forall out s', onI2Crequest s = Ok (out, s') ->
     length out = 1%nat /\
     g_anControllers s' = g_anControllers s /\
     g_nLastRead s' = g_nLastRead s /\
     g_nI2Cregister s' = 0) /\
  (table_ok (g_anControllers s) -> 0 <= g_nLastRead s <= MAX_CONTROLLERS ->
     exists k s', onI2Crequest s = Ok ([k], s')).
Proof.
  intros Hsel. unfold onI2Crequest. rewrite Hsel. cbn [Z.eqb negb]. split.
  - intros out s'. unfold getDirty.
    destruct (for_loop _ (g_nLastRead s) _ _ _) as [u|k|j].
    + destruct (for_loop _ 0 _ _ _) as [u'|k|j]; cbn; intros H;
        try discriminate; injection H as <- <-; cbn; auto.
    + cbn. intros H. injection H as <- <-. cbn. auto.
    + cbn. discriminate.
  - intros Hok Hcur. rewrite getDirty_correct by assumption.
    destruct (first_dirty _ _); cbn; eauto.
Qed.

Lemma onI2Crequest_idle_frame_witness :
  onI2Crequest init_state = Ok ([0], writeInterrupt HIGH init_state) /\
  length [0] = 1%nat /\
  g_anControllers (writeInterrupt HIGH init_state) = g_anControllers init_state /\
  g_nLastRead (writeInterrupt HIGH init_state) = g_nLastRead init_state /\
  g_nI2Cregister (writeInterrupt HIGH init_state) = 0 /\
  exists k s', onI2Crequest init_state = Ok ([k], s').
Proof.
  destruct (onI2Crequest_idle_frame init_state eq_refl) as [Hframe Hret].
  split; [reflexivity|].
  destruct (Hframe [0] (writeInterrupt HIGH init_state) eq_refl)
    as [Hlen [Hregs [Hlast Hsel]]].
  repeat split; try assumption.
  apply Hret; [reflexivity | closed_arith].
Defined.

(** ** The potentiometer filter *)

Lemma set_count_same (c : Controller) (n : Z) : count c = n -> set_count n c = c.
Proof. intros <-. destruct c. reflexivity. Qed.

(** A reading within one mask unit of the stored value is noise. *)
Lemma adcSample_noise (a now : Z) (c : Controller) :
  Z.abs (a - value c) < mask_unit -> adcSample a now c = set_count 0 c.
Proof.
  intros H. change mask_unit with 4 in H. unfold adcSample.
  rewrite c_abs_small by lia. change (Z.shiftl 1 ADC_MASK_BITS) with 4.
  destruct (Z.ltb_spec (Z.abs (a - value c)) 4); [reflexivity | lia].
Qed.

(** A reading further away only advances the run-length counter while the
    run is short of [ADC_FILTER_SAMPLES]. *)
Lemma adcSample_counting (a now : Z) (c : Controller) :
  adc_reading a -> adc_reading (value c) ->
  mask_unit <= Z.abs (a - value c) ->
  0 <= count c -> count c + 1 < ADC_FILTER_SAMPLES ->
  adcSample a now c = set_count (count c + 1) c.
Proof.
  unfold adc_reading. change mask_unit with 4. change ADC_FILTER_SAMPLES with 8.
  intros Ha Hv H Hc0 Hc. unfold adcSample.
  rewrite c_abs_small by lia. change (Z.shiftl 1 ADC_MASK_BITS) with 4.
  destruct (Z.ltb_spec (Z.abs (a - value c)) 4); [lia|].
  rewrite u8_small by lia. cbn [count set_count].
  change ADC_FILTER_SAMPLES with 8.
  destruct (Z.ltb_spec (count c + 1) 8); [reflexivity | lia].
Qed.

(** The reading that completes the run is taken over. *)
Lemma adcSample_accept (a now : Z) (c : Controller) :
  adc_reading a -> adc_reading (value c) ->
  mask_unit <= Z.abs (a - value c) ->
  count c + 1 = ADC_FILTER_SAMPLES ->
  adcSample a now c =
  mkController true a 0 (code c) (type c) now.
Proof.
  unfold adc_reading. change mask_unit with 4. change ADC_FILTER_SAMPLES with 8.
  intros Ha Hv H Hc. unfold adcSample.
  rewrite c_abs_small by lia. change (Z.shiftl 1 ADC_MASK_BITS) with 4.
  destruct (Z.ltb_spec (Z.abs (a - value c)) 4); [lia|].
  rewrite u8_small by lia. cbn [count set_count].
  change ADC_FILTER_SAMPLES with 8.
  destruct (Z.ltb_spec (count c + 1) 8); [lia | reflexivity].
Qed.

(** The stored value of a potentiometer is always a reading of the
    converter. *)
Lemma adcSample_reading (a now : Z) (c : Controller) :
  adc_reading a -> adc_reading (value c) ->
  adc_reading (value (adcSample a now c)).
Proof.
  intros Ha Hv. unfold adcSample.
  destruct (_ <? Z.shiftl 1 ADC_MASK_BITS); [exact Hv|].
  cbn [count set_count].
  destruct (_ <? ADC_FILTER_SAMPLES); [exact Hv | exact Ha].
Qed.

Lemma adcRun_snoc (samples : list (Z * Z)) (a now : Z) (c : Controller) :
  adcRun (samples ++ [(a, now)]) c = adcSample a now (adcRun samples c).
Proof. unfold adcRun. rewrite fold_left_app. reflexivity. Qed.

(** However long readings within tolerance go on, the record only has its
    counter cleared. *)
Lemma adcRun_noise (samples : list (Z * Z)) :
  forall c : Controller,
    Forall (fun '(a, _) => Z.abs (a - value c) < mask_unit) samples ->
    adcRun samples c = match samples with [] => c | _ => set_count 0 c end.
Proof.
  induction samples as [|[a now] samples IH]; intros c H; [reflexivity|].
  inversion H as [|x l Ha Hrest]; subst.
  change (adcRun ((a, now) :: samples) c) with (adcRun samples (adcSample a now c)).
  rewrite adcSample_noise by exact Ha.
  rewrite IH by exact Hrest.
  destruct samples; reflexivity.
Qed.

(** A run of readings beyond tolerance that stays short of the threshold
    only counts. *)
Lemma adcRun_counting (samples : list (Z * Z)) :
  forall c : Controller,
    adc_reading (value c) -> 0 <= count c ->
    count c + Z.of_nat (length samples) < ADC_FILTER_SAMPLES ->
    Forall (fun '(a, _) => adc_reading a /\ mask_unit <= Z.abs (a - value c)) samples ->
    adcRun samples c = set_count (count c + Z.of_nat (length samples)) c.
Proof.
  induction samples as [|[a now] samples IH]; intros c Hv Hc0 Hc H.
  - cbn. rewrite Z.add_0_r. symmetry. apply set_count_same. reflexivity.
  - inversion H as [|x l Hx Hrest]; subst. destruct Hx as [Ha Hd].
    change (adcRun ((a, now) :: samples) c) with (adcRun samples (adcSample a now c)).
    cbn [length] in Hc.
    rewrite adcSample_counting by (try assumption; lia).
    rewrite IH; cbn [value count set_count]; try assumption; try lia.
    unfold set_count. cbn. f_equal. lia.
Qed.

(** C4. For a potentiometer record [c]: (a) however many readings within
    one mask unit of the stored value follow each other, [dirty] and
    [value] stay as they were and the run-length counter is cleared;
    (b) starting from a cleared counter, [ADC_FILTER_SAMPLES] consecutive
    readings that each differ from the stored value by at least one mask
    unit leave [dirty] and [value] alone up to the last but one, and the
    last sets [dirty], stores its raw reading and clears the counter; the
    value then read over the bus is that reading shifted right by
    [ADC_MASK_BITS]. *)
Theorem adc_hysteresis (c : Controller) :
  (forall noise : list (Z * Z),
     Forall (fun '(a, _) => Z.abs (a - value c) < mask_unit) noise ->
     dirty (adcRun noise c) = dirty c /\
     value (adcRun noise c) = value c /\
     (noise <> [] -> count (adcRun noise c) = 0)) /\
  (forall (front : list (Z * Z)) (a now : Z),
     adc_reading (value c) ->
     count c = 0 ->
     Z.of_nat (length (front ++ [(a, now)])) = ADC_FILTER_SAMPLES ->
     Forall (fun '(x, _) => adc_reading x /\ mask_unit <= Z.abs (x - value c))
            (front ++ [(a, now)]) ->
     (forall k : nat, (k <= length front)%nat ->
        dirty (adcRun (take k front) c) = dirty c /\
        value (adcRun (take k front) c) = value c) /\
     adcRun (front ++ [(a, now)]) c = mkController true a 0 (code c) (type c) now /\
     (type c = CONTROLLER_TYPE_POT ->
        fst (getValue (adcRun (front ++ [(a, now)]) c)) = Z.shiftr a ADC_MASK_BITS)).
Proof.
  split.
  - intros noise H. rewrite adcRun_noise by exact H.
    destruct noise; cbn; repeat split; congruence.
  - intros front a now Hv Hc Hlen H.
    rewrite length_app in Hlen. cbn [length] in Hlen.
    apply Forall_app in H as [Hfront Hlast].
    inversion Hlast as [|x l Hx _]; subst. destruct Hx as [Ha Hd].
    assert (Hprefix : forall k : nat, (k <= length front)%nat ->
              adcRun (take k front) c = set_count (Z.of_nat k) c).
    { intros k Hk. rewrite adcRun_counting.
      - rewrite Hc, length_take. f_equal. lia.
      - exact Hv.
      - lia.
      - rewrite Hc, length_take. lia.
      - apply Forall_take. exact Hfront. }
    assert (Hrun : adcRun (front ++ [(a, now)]) c =
                   mkController true a 0 (code c) (type c) now).
    { rewrite adcRun_snoc. rewrite <- (firstn_all front) at 1.
      rewrite Hprefix by lia.
      rewrite adcSample_accept; cbn [value count set_count code type];
        try assumption; [reflexivity | lia]. }
    split; [|split].
    + intros k Hk. rewrite Hprefix by exact Hk. split; reflexivity.
    + exact Hrun.
    + intros Hty. rewrite Hrun. rewrite getValue_pot by exact Hty. reflexivity.
Qed.

Lemma adc_hysteresis_witness :
  (dirty (adcRun [(1, 5); (3, 6); (2, 7)] (init_controller CONTROLLER_TYPE_POT))
     = false /\
   value (adcRun [(1, 5); (3, 6); (2, 7)] (init_controller CONTROLLER_TYPE_POT))
     = 0 /\
   count (adcRun [(1, 5); (3, 6); (2, 7)] (init_controller CONTROLLER_TYPE_POT))
     = 0) /\
  adcRun (repeat (100, 5) 8) (init_controller CONTROLLER_TYPE_POT) =
    mkController true 100 0 0 CONTROLLER_TYPE_POT 5 /\
  fst (getValue (adcRun (repeat (100, 5) 8) (init_controller CONTROLLER_TYPE_POT)))
    = 25.
Proof.
  destruct (adc_hysteresis (init_controller CONTROLLER_TYPE_POT)) as [Hnoise Hstep].
  split.
  - destruct (Hnoise [(1, 5); (3, 6); (2, 7)]) as [Hd [Hv Hc]].
    + repeat match goal with |- Forall _ _ => constructor end; closed_arith.
    + split; [exact Hd|]. split; [exact Hv|]. apply Hc. discriminate.
  - destruct (Hstep (repeat (100, 5) 7) 100 5) as [_ [Hrun Hget]].
    + closed_arith.
    + reflexivity.
    + reflexivity.
    + repeat match goal with |- Forall _ _ => constructor end; closed_arith.
    + split; [exact Hrun | exact (Hget eq_refl)].
Defined.

(** ** The switch filter *)

(** As long as [time + DEBOUNCE_TIME] does not wrap, a sample is accepted
    exactly when its level differs from the stored one and more than
    [DEBOUNCE_TIME] ms have passed since the last change; a sample that is
    not accepted leaves the record alone. *)
Lemma switchSample_no_wrap (nValue now_test now_stamp : Z) (c : Controller) :
  0 <= time c -> time c + DEBOUNCE_TIME < 4294967296 ->
  switchSample nValue now_test now_stamp c =
  if negb (nValue =? value c) && (now_test - time c >? DEBOUNCE_TIME)
  then mkController true nValue (count c) (code c) (type c) now_stamp
  else c.
Proof.
  intros H0 H1. unfold switchSample.
  assert (HD : 0 <= DEBOUNCE_TIME) by (vm_compute; discriminate).
  rewrite u32_small by lia.
  replace (now_test - time c >? DEBOUNCE_TIME)
    with (now_test >? time c + DEBOUNCE_TIME); [reflexivity|].
  rewrite !Z.gtb_ltb.
  destruct (Z.ltb_spec (time c + DEBOUNCE_TIME) now_test);
    destruct (Z.ltb_spec DEBOUNCE_TIME (now_test - time c)); lia || reflexivity.
Qed.

(** C8. A switch changed 10 ms before the 32-bit clock wraps; 5 ms later,
    well inside the debounce window, a sample of the other level is
    accepted all the same, since [time + DEBOUNCE_TIME] has wrapped to
    40. *)
Theorem switch_debounce_wraps :
  4294967291 - time switch_before_wrap = 5 /\
  5 <= DEBOUNCE_TIME /\
  switchSample 1 4294967291 4294967291 switch_before_wrap =
    mkController true 1 0 0 CONTROLLER_TYPE_SWITCH 4294967291.
Proof. repeat split. vm_compute. discriminate. Qed.

(** ** The encoder decoder *)

(** With no direction left over from an earlier encoder, one sample moves
    the value only by completing one of the two sentinel histories, and
    then by one step, or by [ROT_FAST_SCALE] steps when the last change is
    less than [ROT_THRESHOLD] ms old. *)
Lemma encoderSample_fresh (nClk nData lNow : Z) (c : Controller) :
  let '(nDir', c') := encoderSample nClk nData lNow 0 c in
  let tick := if lNow >=? u32 (time c + ROT_THRESHOLD) then 1 else ROT_FAST_SCALE in
  (nDir' = 1 /\ count c' = 23 /\ value c' = s32 (value c + tick) /\ dirty c' = true)
  \/ (nDir' = -1 /\ count c' = 212 /\ value c' = s32 (value c + - tick) /\ dirty c' = true)
  \/ (nDir' = 0 /\ value c' = value c /\ dirty c' = dirty c).
Proof.
  unfold encoderSample.
  destruct ((nClk =? 0) && (code c =? 0)); [right; right; auto|].
  cbv zeta. cbn [code count value time dirty set_code set_count].
  destruct (negb (tbl_at anValid _ =? 0)); [|right; right; auto].
  destruct (Z.eqb_spec (Z.lor (u8 (Z.shiftl (count c) 4))
              (Z.land (if negb (nClk =? 0)
                       then Z.lor (if negb (nData =? 0)
                                   then Z.lor (u8 (Z.shiftl (code c) 2)) 2
                                   else u8 (Z.shiftl (code c) 2)) 1
                       else if negb (nData =? 0)
                            then Z.lor (u8 (Z.shiftl (code c) 2)) 2
                            else u8 (Z.shiftl (code c) 2)) 15)) 212) as [H1|H1].
  - right; left. cbn [Z.eqb negb].
    destruct (lNow >=? u32 (time c + ROT_THRESHOLD)); cbn; auto.
  - destruct (Z.eqb_spec (Z.lor (u8 (Z.shiftl (count c) 4))
              (Z.land (if negb (nClk =? 0)
                       then Z.lor (if negb (nData =? 0)
                                   then Z.lor (u8 (Z.shiftl (code c) 2)) 2
                                   else u8 (Z.shiftl (code c) 2)) 1
                       else if negb (nData =? 0)
                            then Z.lor (u8 (Z.shiftl (code c) 2)) 2
                            else u8 (Z.shiftl (code c) 2)) 15)) 23) as [H2|H2].
    + left. cbn [Z.eqb negb].
      destruct (lNow >=? u32 (time c + ROT_THRESHOLD)); cbn; auto.
    + right; right. cbn. auto.
Qed.

(** A direction left over from an earlier encoder of the pass is applied
    to an encoder that has only just left its rest position. *)
Lemma encoderSample_stale (lNow nDir : Z) :
  nDir <> 0 -> ROT_THRESHOLD <= lNow ->
  encoderSample 1 0 lNow nDir (init_controller CONTROLLER_TYPE_ENCODER) =
  (nDir, mkController true (s32 nDir) 1 0 CONTROLLER_TYPE_ENCODER lNow).
Proof.
  intros Hd Hnow. unfold encoderSample.
  change (init_controller CONTROLLER_TYPE_ENCODER)
    with (mkController false 0 0 0 CONTROLLER_TYPE_ENCODER 0).
  cbn [code count value time dirty type set_code set_count set_value set_time
       set_dirty].
  change (u8 (Z.shiftl 0 2)) with 0. change (u8 (Z.shiftl 0 4)) with 0.
  change (u32 (0 + ROT_THRESHOLD)) with ROT_THRESHOLD.
  cbn [Z.eqb Pos.eqb andb negb].
  change (Z.land (Z.lor 0 1) 15) with 1.
  change (tbl_at anValid 1) with 1.
  change (Z.lor 0 1) with 1.
  cbn [Z.eqb Pos.eqb andb negb].
  destruct (Z.eqb_spec nDir 0) as [H0|_]; [contradiction|]. cbn [negb].
  destruct (Z.geb_spec lNow ROT_THRESHOLD) as [_|Hlt]; [|lia].
  reflexivity.
Qed.

(** C3. One pass over the encoders in which encoder 0 completes a
    clockwise cycle (history 0x17) and encoder 1 has just left its rest
    position: encoder 1 ends the pass with history 0x01, which is neither
    sentinel, and yet with its value moved from 0 to 1 and marked dirty. *)
Theorem readEncoder_stale_direction :
  exists regs',
    readEncoder (two_encoders_world 1000) encoder0_mid_turn = Ok regs' /\
    encoder0_mid_turn !! 105%nat = Some (init_controller CONTROLLER_TYPE_ENCODER) /\
    regs' !! 104%nat = Some (mkController true 1 23 0 CONTROLLER_TYPE_ENCODER 1000) /\
    regs' !! 105%nat = Some (mkController true 1 1 0 CONTROLLER_TYPE_ENCODER 1000).
Proof. eexists. repeat split; vm_compute; reflexivity. Qed.

(** ** The acquisition passes stay inside the table *)

Lemma for_loop_inv {S R : Type} (P : S -> Prop) (Q : R -> Prop)
    (body : Z -> S -> Ctl S R) (step : Z) :
  (forall i s, 0 <= i < 256 -> P s ->
     match body i s with
     | Next s' => P s'
     | Return r => Q r
     | Oob _ => False
     end) ->
  forall (n : nat) (i : Z) (s : S), 0 <= i < 256 -> P s ->
    match for_loop n i step body s with
    | Next s' => P s'
    | Return r => Q r
    | Oob _ => False
    end.
Proof.
  intros Hbody. induction n as [|n IH]; intros i s Hi HP; [exact HP|].
  cbn [for_loop]. pose proof (Hbody i s Hi HP) as Hb.
  destruct (body i s) as [s'|r|j]; [|exact Hb|exact Hb].
  apply IH; [apply u8_range | exact Hb].
Qed.

Lemma ctl_update_ok (regs : list Controller) (i : Z) (f : Controller -> Controller) :
  0 <= i < Z.of_nat (length regs) ->
  exists regs', ctl_update regs i f = Ok regs' /\ length regs' = length regs.
Proof.
  intros Hi. unfold ctl_update.
  destruct (ctl_at_in regs i Hi) as [c [_ Hat]]. rewrite Hat.
  eexists. split; [reflexivity | apply length_insert].
Qed.

Section Passes.

Variable w : Inputs.

Lemma readAdc_ok (regs : list Controller) :
  table_ok regs -> exists regs', readAdc w regs = Ok regs' /\ table_ok regs'.
Proof.
  intros Hok. unfold readAdc.
  pose proof (for_loop_inv (R := unit) table_ok (fun _ => True)
    (fun nMux regs =>
      for_loop (R := unit) (loop_count 0 8 1) 0 1 (fun nAdc regs =>
        let nPot := u8 (nMux + nAdc * 8) in
        if nPot <? POTS then
          let nAnaRead := analogRead w nMux (tbl_at AnaloguePins nAdc) in
          lift_update
            (ctl_update regs (POT_START + nPot) (adcSample nAnaRead (millis_pot w nPot)))
            Next
        else Next regs) regs) 1) as Hloop.
  match type of Hloop with ?A -> _ => assert (Hbody : A) end.
  { intros nMux regs0 HnMux Hok0.
    apply (for_loop_inv (R := unit) table_ok (fun _ => True)); [|lia|exact Hok0].
    intros nAdc regs1 HnAdc Hok1. cbv zeta.
    pose proof (u8_range (nMux + nAdc * 8)) as Hpot.
    destruct (Z.ltb_spec (u8 (nMux + nAdc * 8)) POTS) as [Hlt|_]; [|exact Hok1].
    unfold table_ok in Hok1.
    destruct (ctl_update_ok regs1 (POT_START + u8 (nMux + nAdc * 8))
                (adcSample (analogRead w nMux (tbl_at AnaloguePins nAdc))
                           (millis_pot w (u8 (nMux + nAdc * 8)))))
      as [regs' [Hup Hlen]].
    { change POT_START with 0. change POTS with 64 in Hlt.
      change MAX_CONTROLLERS with 144 in Hok1. lia. }
    rewrite Hup. cbn. unfold table_ok. rewrite Hlen. exact Hok1. }
  specialize (Hloop Hbody (loop_count 0 8 1) 0 regs ltac:(lia) Hok).
  destruct (for_loop _ 0 1 _ regs) as [regs'|r|j]; [eauto | eauto | contradiction].
Qed.

Lemma readSwitch_ok (regs : list Controller) :
  table_ok regs -> exists regs', readSwitch w regs = Ok regs' /\ table_ok regs'.
Proof.
  intros Hok. unfold readSwitch.
  pose proof (for_loop_inv table_ok table_ok
    (fun nY regs =>
      for_loop (loop_count 0 (sizeof SwitchInputPins) 1) 0 1 (fun nX regs =>
        let nSwitch := s32 (nY * sizeof SwitchInputPins + nX) in
        if nSwitch <? SWITCHES then
          let nValue := digitalRead w nY (tbl_at SwitchInputPins nX) in
          lift_update
            (ctl_update regs (SWITCH_START + nSwitch)
               (switchSample nValue (millis_switch_test w nSwitch)
                                    (millis_switch_stamp w nSwitch)))
            Next
        else Return regs) regs) 1) as Hloop.
  match type of Hloop with ?A -> _ => assert (Hbody : A) end.
  { intros nY regs0 HnY Hok0.
    apply (for_loop_inv table_ok table_ok); [|lia|exact Hok0].
    intros nX regs1 HnX Hok1. cbv zeta.
    change (sizeof SwitchInputPins) with 4.
    rewrite (s32_small (nY * 4 + nX)) by lia.
    destruct (Z.ltb_spec (nY * 4 + nX) SWITCHES) as [Hlt|_]; [|exact Hok1].
    unfold table_ok in Hok1.
    destruct (ctl_update_ok regs1 (SWITCH_START + (nY * 4 + nX))
                (switchSample (digitalRead w nY (tbl_at SwitchInputPins nX))
                              (millis_switch_test w (nY * 4 + nX))
                              (millis_switch_stamp w (nY * 4 + nX))))
      as [regs' [Hup Hlen]].
    { change SWITCH_START with 64. change SWITCHES with 40 in Hlt.
      change MAX_CONTROLLERS with 144 in Hok1. lia. }
    rewrite Hup. cbn. unfold table_ok. rewrite Hlen. exact Hok1. }
  specialize (Hloop Hbody (loop_count 0 (sizeof MatrixOutputPins) 1) 0 regs
                ltac:(lia) Hok).
  destruct (for_loop _ 0 1 _ regs) as [regs'|regs'|j]; [eauto | eauto | contradiction].
Qed.

Lemma readEncoder_ok (regs : list Controller) :
  table_ok regs -> exists regs', readEncoder w regs = Ok regs' /\ table_ok regs'.
Proof.
  intros Hok. unfold readEncoder.
  pose proof (for_loop_inv (fun st : Z * list Controller => table_ok (snd st)) table_ok
    (fun nY st =>
      for_loop (loop_count 0 (sizeof EncoderInputPins) 2) 0 2
        (fun nX '(nDir, regs) =>
          let nEncoder := s32 ((nY * sizeof EncoderInputPins + nX) / 2) in
          if nEncoder <? ENCODERS then
            let nClk := digitalRead w nY (tbl_at EncoderInputPins nX) in
            let nData := digitalRead w nY (tbl_at EncoderInputPins (nX + 1)) in
            match ctl_at regs (ENCODER_START + nEncoder) with
            | Ok c =>
                let '(nDir', c') :=
                  encoderSample nClk nData (millis_encoder w nEncoder) nDir c in
                Next (nDir', <[Z.to_nat (ENCODER_START + nEncoder) := c']> regs)
            | OutOfBounds j => Oob j
            end
          else Return regs) st) 1) as Hloop.
  match type of Hloop with ?A -> _ => assert (Hbody : A) end.
  { intros nY st0 HnY Hok0.
    apply (for_loop_inv (fun st : Z * list Controller => table_ok (snd st)) table_ok);
      [|lia|exact Hok0].
    intros nX [nDir regs1] HnX Hok1. cbv zeta. cbn [snd] in Hok1.
    change (sizeof EncoderInputPins) with 8.
    assert (Hdiv : 0 <= (nY * 8 + nX) / 2 < 2147483648).
    { split; [apply Z.div_pos; lia | apply Z.div_lt_upper_bound; lia]. }
    rewrite (s32_small ((nY * 8 + nX) / 2)) by lia.
    destruct (Z.ltb_spec ((nY * 8 + nX) / 2) ENCODERS) as [Hlt|_]; [|exact Hok1].
    unfold table_ok in Hok1.
    destruct (ctl_at_in regs1 (ENCODER_START + (nY * 8 + nX) / 2)) as [c [_ Hat]].
    { change ENCODER_START with 104. change ENCODERS with 40 in Hlt.
      change MAX_CONTROLLERS with 144 in Hok1. lia. }
    rewrite Hat. destruct (encoderSample _ _ _ nDir c) as [nDir' c'].
    cbn [snd]. unfold table_ok. rewrite length_insert. exact Hok1. }
  specialize (Hloop Hbody (loop_count 0 (sizeof MatrixOutputPins) 1) 0 (0, regs)
                ltac:(lia) Hok).
  destruct (for_loop _ 0 1 _ (0, regs)) as [[nDir regs']|regs'|j];
    [eauto | eauto | contradiction].
Qed.

End Passes.

(** ** The cursor stays usable *)

Lemma getDirty_ok (s : State) :
  state_ok s ->
  exists k s', getDirty s = Ok (k, s') /\
    g_anControllers s' = g_anControllers s /\
    g_nLastRead s' = g_nLastRead s /\
    g_nI2Cregister s' = g_nI2Cregister s.
Proof.
  intros [Hok Hcur]. rewrite getDirty_correct by assumption.
  destruct (first_dirty _ _); eexists _, _; repeat split.
Qed.

Lemma loop_ok (w : Inputs) (s : State) :
  state_ok s ->
  exists s', loop w s = Ok s' /\ state_ok s' /\ g_nLastRead s' = g_nLastRead s.
Proof.
  intros [Hok Hcur]. unfold loop.
  destruct (readAdc_ok w _ Hok) as [regs1 [H1 Hok1]]. rewrite H1. cbn [mbind Res_bind].
  destruct (readSwitch_ok w _ Hok1) as [regs2 [H2 Hok2]]. rewrite H2. cbn [mbind Res_bind].
  destruct (readEncoder_ok w _ Hok2) as [regs3 [H3 Hok3]]. rewrite H3. cbn [mbind Res_bind].
  destruct (getDirty_ok (set_controllers regs3 s)) as [k [s' [Hg [Hregs [Hlast _]]]]].
  { split; assumption. }
  rewrite Hg. cbn. exists s'. split; [reflexivity|].
  unfold state_ok. rewrite Hregs, Hlast. cbn. auto.
Qed.

Lemma onI2Crequest_ok (s : State) :
  state_ok s ->
  exists out s', onI2Crequest s = Ok (out, s') /\ state_ok s' /\
                 g_nLastRead s' = g_nLastRead s.
Proof.
  intros [Hok Hcur]. unfold onI2Crequest.
  destruct (negb (g_nI2Cregister s =? 0)).
  - unfold sendValue.
    pose proof (u8_range (g_nI2Cregister s)) as Hr.
    destruct (Z.eqb_spec (u8 (g_nI2Cregister s)) 0) as [H0|H0].
    { cbn. eexists _, _. split; [reflexivity|]. split; [split|]; cbn; first [assumption | reflexivity]. }
    destruct (Z.gtb_spec (u8 (g_nI2Cregister s)) MAX_CONTROLLERS) as [Hgt|Hle].
    { cbn. eexists _, _. split; [reflexivity|]. split; [split|]; cbn; first [assumption | reflexivity]. }
    cbn [orb]. unfold table_ok in Hok. change MAX_CONTROLLERS with 144 in *.
    rewrite (u8_small (u8 (g_nI2Cregister s) - 1)) by lia.
    destruct (ctl_at_in (g_anControllers s) (u8 (g_nI2Cregister s) - 1))
      as [c [_ Hat]]; [lia|].
    rewrite Hat. cbn [mbind Res_bind]. destruct (getValue c) as [nValue c'].
    destruct (getDirty_ok (set_controllers
                (<[Z.to_nat (u8 (g_nI2Cregister s) - 1) := set_dirty false c']>
                   (g_anControllers s)) s))
      as [k [s' [Hg [Hregs [Hlast _]]]]].
    { split; [|exact Hcur]. unfold table_ok. cbn. rewrite length_insert. exact Hok. }
    rewrite Hg. cbn. eexists _, _. split; [reflexivity|].
    unfold state_ok, table_ok. cbn. rewrite Hregs, Hlast. cbn.
    rewrite length_insert. auto.
  - destruct (getDirty_ok s) as [k [s' [Hg [Hregs [Hlast _]]]]]; [split; assumption|].
    rewrite Hg. cbn. eexists _, _. split; [reflexivity|].
    unfold state_ok. rewrite Hregs, Hlast. auto.
Qed.

Lemma onI2Creceive_ok (nBytes : Z) (rx : list Z) (s : State) :
  state_ok s -> addresses_table (Receive nBytes rx) ->
  state_ok (onI2Creceive nBytes rx s).
Proof.
  intros [Hok Hcur] Haddr. unfold onI2Creceive.
  destruct (Z.ltb_spec nBytes 0) as [Hneg|Hpos]; [split; assumption|].
  destruct Haddr as [Hneg|Hrange]; [lia|].
  split; [exact Hok|]. cbn. change MAX_CONTROLLERS with 144 in *.
  rewrite u8_small by lia. exact Hrange.
Qed.

Lemma step_ok (e : Event) (s : State) :
  state_ok s -> addresses_table e ->
  exists out s', step e s = Ok (out, s') /\ state_ok s'.
Proof.
  intros Hs He. destruct e as [nBytes rx| |w]; cbn [step].
  - eexists _, _. split; [reflexivity|]. apply onI2Creceive_ok; assumption.
  - destruct (onI2Crequest_ok s Hs) as [out [s' [H [Hs' _]]]]. eauto.
  - destruct (loop_ok w s Hs) as [s' [H [Hs' _]]]. rewrite H. cbn. eauto.
Qed.

(** C6, as the code has it.  From a state whose cursor is at most the
    table size, every sequence of receives, requests and passes in which
    each received address is at most the table size runs to its end, and
    the cursor is then again between 0 and the table size, the size itself
    included: that is where selecting the last register puts it, and a
    scan from there starts at index 0. *)
Theorem cursor_within_table (es : list Event) :
  forall s : State,
    state_ok s ->
    Forall addresses_table es ->
    exists s', run es s = Ok s' /\
               table_ok (g_anControllers s') /\
               0 <= g_nLastRead s' <= MAX_CONTROLLERS.
Proof.
  induction es as [|e es IH]; intros s Hs Hes.
  - exists s. split; [reflexivity | exact Hs].
  - inversion Hes as [|e' es' He Hrest]; subst.
    destruct (step_ok e s Hs He) as [out [s1 [Hstep Hs1]]].
    cbn [run]. rewrite Hstep. cbn [mbind Res_bind].
    apply IH; assumption.
Qed.

(** C6, as stated, fails: selecting the last register leaves the cursor
    at the table size, which is not an index of the table. *)
Lemma cursor_valid_index_counterexample :
  exists s, run [Receive 1 [144]] init_state = Ok s /\
            ~ (0 <= g_nLastRead s < MAX_CONTROLLERS).
Proof.
  eexists. split; [reflexivity|]. vm_compute. intros [_ H]. discriminate H.
Qed.

Lemma cursor_within_table_witness :
  exists s',
    run [Receive 1 [144]; Request; Pass (two_encoders_world 1000); Request;
         Receive 1 [105]; Request] init_state = Ok s' /\
    table_ok (g_anControllers s') /\
    0 <= g_nLastRead s' <= MAX_CONTROLLERS.
Proof.
  apply (cursor_within_table
           [Receive 1 [144]; Request; Pass (two_encoders_world 1000); Request;
            Receive 1 [105]; Request] init_state).
  - split; [reflexivity | closed_arith].
  - repeat match goal with |- Forall _ _ => constructor end;
      cbn [addresses_table]; try exact I; right; closed_arith.
Defined.

(** * Further properties of the sketch *)

(** ** What the passes leave alone *)

Lemma for_loop_inv_partial {S R : Type} (P : S -> Prop) (Q : R -> Prop)
    (body : Z -> S -> Ctl S R) (step : Z) :
  (forall i s, 0 <= i < 256 -> P s ->
     match body i s with
     | Next s' => P s'
     | Return r => Q r
     | Oob _ => True
     end) ->
  forall (n : nat) (i : Z) (s : S), 0 <= i < 256 -> P s ->
    match for_loop n i step body s with
    | Next s' => P s'
    | Return r => Q r
    | Oob _ => True
    end.
Proof.
  intros Hbody. induction n as [|n IH]; intros i s Hi HP; [exact HP|].
  cbn [for_loop]. pose proof (Hbody i s Hi HP) as Hb.
  destruct (body i s) as [s'|r|j]; [|exact Hb|exact I].
  apply IH; [apply u8_range | exact Hb].
Qed.

Lemma ctl_at_Ok (regs : list Controller) (i : Z) (c : Controller) :
  ctl_at regs i = Ok c -> 0 <= i /\ regs !! Z.to_nat i = Some c.
Proof.
  unfold ctl_at. destruct (Z.ltb_spec i 0) as [|Hi]; [discriminate|].
  destruct (regs !! Z.to_nat i) as [c0|]; [|discriminate].
  intros H. injection H as <-. auto.
Qed.

Lemma keeps_refl (c : Controller) : keeps_kind_and_change c c.
Proof. split; auto. Qed.

Lemma keeps_trans (c1 c2 c3 : Controller) :
  keeps_kind_and_change c1 c2 -> keeps_kind_and_change c2 c3 ->
  keeps_kind_and_change c1 c3.
Proof. intros [H1 H2] [H3 H4]. split; [congruence | auto]. Qed.

Lemma adcSample_keeps (a now : Z) (c : Controller) :
  keeps_kind_and_change c (adcSample a now c).
Proof.
  unfold adcSample. destruct (_ <? Z.shiftl 1 ADC_MASK_BITS); [split; auto|].
  cbn [count set_count]. destruct (_ <? ADC_FILTER_SAMPLES); split; auto.
Qed.

Lemma switchSample_keeps (nValue t1 t2 : Z) (c : Controller) :
  keeps_kind_and_change c (switchSample nValue t1 t2 c).
Proof. unfold switchSample. destruct (_ && _); split; auto. Qed.

Lemma encoderSample_keeps (nClk nData lNow nDir : Z) (c : Controller) :
  keeps_kind_and_change c (snd (encoderSample nClk nData lNow nDir c)).
Proof.
  unfold encoderSample.
  destruct ((nClk =? 0) && (code c =? 0)); [apply keeps_refl|].
  cbv zeta. destruct (negb (tbl_at anValid _ =? 0)); [|split; auto].
  destruct (negb (_ =? 0)); [|split; auto].
  destruct (lNow >=? _); split; auto.
Qed.

Lemma pass_effect_refl (lo hi : nat) (regs : list Controller) :
  pass_effect lo hi regs regs.
Proof.
  split; [|auto]. apply Forall2_same_length_lookup_2; [reflexivity|].
  intros i c c' H1 H2. rewrite H1 in H2. injection H2 as <-. apply keeps_refl.
Qed.

Lemma pass_effect_update (lo hi : nat) (regs0 regs : list Controller)
    (j : nat) (c c' : Controller) :
  pass_effect lo hi regs0 regs ->
  regs !! j = Some c -> (lo <= j < hi)%nat ->
  keeps_kind_and_change c c' ->
  pass_effect lo hi regs0 (<[j := c']> regs).
Proof.
  intros [Hall Hout] Hj Hrange Hk. split.
  - destruct (Forall2_lookup_r _ _ _ _ _ Hall Hj) as [c0 [H0 Hk0]].
    rewrite <- (list_insert_id regs0 j c0 H0).
    apply Forall2_insert; [exact Hall|]. eapply keeps_trans; eassumption.
  - intros i Hi. rewrite list_lookup_insert_ne by lia. apply Hout. exact Hi.
Qed.

Lemma pass_effect_kinds (lo hi : nat) (regs regs' : list Controller) :
  pass_effect lo hi regs regs' -> type <$> regs' = type <$> regs.
Proof.
  intros [Hall _]. induction Hall as [|c c' l l' [Hty _] _ IH]; [reflexivity|].
  cbn. rewrite Hty, IH. reflexivity.
Qed.

Lemma pass_effect_weaken (lo hi lo' hi' : nat) (regs regs' : list Controller) :
  (lo' <= lo)%nat -> (hi <= hi')%nat ->
  pass_effect lo hi regs regs' -> pass_effect lo' hi' regs regs'.
Proof. intros Hlo Hhi [Hall Hout]. split; [exact Hall|]. intros i Hi. apply Hout. lia. Qed.

Lemma pass_effect_trans (lo hi : nat) (r1 r2 r3 : list Controller) :
  pass_effect lo hi r1 r2 -> pass_effect lo hi r2 r3 -> pass_effect lo hi r1 r3.
Proof.
  intros [H12 O12] [H23 O23]. split.
  - eapply Forall2_trans; [|exact H12|exact H23].
    intros a b c. apply keeps_trans.
  - intros i Hi. rewrite O23, O12 by exact Hi. reflexivity.
Qed.

Section PassEffects.

Variable w : Inputs.

Lemma readAdc_effect (regs regs' : list Controller) :
  readAdc w regs = Ok regs' ->
  pass_effect (Z.to_nat POT_START) (Z.to_nat (POT_START + POTS)) regs regs'.
Proof.
  unfold readAdc.
  set (P := pass_effect (Z.to_nat POT_START) (Z.to_nat (POT_START + POTS)) regs).
  match goal with
  | |- match for_loop ?n ?i ?st ?body ?s with _ => _ end = _ -> _ =>
      assert (Hloop : match for_loop n i st body s with
                      | Next r => P r
                      | Return _ => True
                      | Oob _ => True
                      end)
  end.
  { apply (for_loop_inv_partial P (fun _ : unit => True)); [|lia|apply pass_effect_refl].
    intros nMux regs0 HnMux HP0.
    apply (for_loop_inv_partial P (fun _ : unit => True)); [|lia|exact HP0].
    intros nAdc regs1 HnAdc HP1. cbv zeta.
    pose proof (u8_range (nMux + nAdc * 8)) as Hpot.
    destruct (Z.ltb_spec (u8 (nMux + nAdc * 8)) POTS) as [Hlt|_]; [|exact HP1].
    unfold ctl_update.
    destruct (ctl_at regs1 _) as [c|j] eqn:Hat; cbn; [|exact I].
    apply ctl_at_Ok in Hat as [_ Hc].
    eapply pass_effect_update; [exact HP1 | exact Hc | | apply adcSample_keeps].
    change POT_START with 0. change POTS with 64 in *. lia. }
  destruct (for_loop _ _ _ _ _) as [r|r|j]; intros H; try discriminate;
    injection H as <-; [exact Hloop | apply pass_effect_refl].
Qed.

Lemma readSwitch_effect (regs regs' : list Controller) :
  readSwitch w regs = Ok regs' ->
  pass_effect (Z.to_nat SWITCH_START) (Z.to_nat (SWITCH_START + SWITCHES)) regs regs'.
Proof.
  unfold readSwitch.
  set (P := pass_effect (Z.to_nat SWITCH_START)
              (Z.to_nat (SWITCH_START + SWITCHES)) regs).
  match goal with
  | |- match for_loop ?n ?i ?st ?body ?s with _ => _ end = _ -> _ =>
      assert (Hloop : match for_loop n i st body s with
                      | Next r => P r
                      | Return r => P r
                      | Oob _ => True
                      end)
  end.
  { apply (for_loop_inv_partial P P); [|lia|apply pass_effect_refl].
    intros nY regs0 HnY HP0.
    apply (for_loop_inv_partial P P); [|lia|exact HP0].
    intros nX regs1 HnX HP1. cbv zeta.
    change (sizeof SwitchInputPins) with 4.
    rewrite (s32_small (nY * 4 + nX)) by lia.
    destruct (Z.ltb_spec (nY * 4 + nX) SWITCHES) as [Hlt|_]; [|exact HP1].
    unfold ctl_update.
    destruct (ctl_at regs1 _) as [c|j] eqn:Hat; cbn; [|exact I].
    apply ctl_at_Ok in Hat as [_ Hc].
    eapply pass_effect_update; [exact HP1 | exact Hc | | apply switchSample_keeps].
    change SWITCH_START with 64. change SWITCHES with 40 in *. lia. }
  destruct (for_loop _ _ _ _ _) as [r|r|j]; intros H; try discriminate;
    injection H as <-; exact Hloop.
Qed.

Lemma readEncoder_effect (regs regs' : list Controller) :
  readEncoder w regs = Ok regs' ->
  pass_effect (Z.to_nat ENCODER_START) (Z.to_nat (ENCODER_START + ENCODERS)) regs regs'.
Proof.
  unfold readEncoder.
  set (P := pass_effect (Z.to_nat ENCODER_START)
              (Z.to_nat (ENCODER_START + ENCODERS)) regs).
  match goal with
  | |- match for_loop ?n ?i ?st ?body ?s with _ => _ end = _ -> _ =>
      assert (Hloop : match for_loop n i st body s with
                      | Next st' => P (snd st')
                      | Return r => P r
                      | Oob _ => True
                      end)
  end.
  { apply (for_loop_inv_partial (fun st : Z * list Controller => P (snd st)) P);
      [|lia|apply pass_effect_refl].
    intros nY st0 HnY HP0.
    apply (for_loop_inv_partial (fun st : Z * list Controller => P (snd st)) P);
      [|lia|exact HP0].
    intros nX [nDir regs1] HnX HP1. cbv zeta. cbn [snd] in HP1.
    change (sizeof EncoderInputPins) with 8.
    assert (Hdiv : 0 <= (nY * 8 + nX) / 2 < 2147483648).
    { split; [apply Z.div_pos; lia | apply Z.div_lt_upper_bound; lia]. }
    rewrite (s32_small ((nY * 8 + nX) / 2)) by lia.
    destruct (Z.ltb_spec ((nY * 8 + nX) / 2) ENCODERS) as [Hlt|_]; [|exact HP1].
    destruct (ctl_at regs1 _) as [c|j] eqn:Hat; [|exact I].
    apply ctl_at_Ok in Hat as [_ Hc].
    pose proof (encoderSample_keeps
                  (digitalRead w nY (tbl_at EncoderInputPins nX))
                  (digitalRead w nY (tbl_at EncoderInputPins (nX + 1)))
                  (millis_encoder w ((nY * 8 + nX) / 2)) nDir c) as Hk.
    destruct (encoderSample _ _ _ nDir c) as [nDir' c']. cbn [snd] in *.
    eapply pass_effect_update; [exact HP1 | exact Hc | | exact Hk].
    change ENCODER_START with 104. change ENCODERS with 40 in *. lia. }
  destruct (for_loop _ _ _ _ _) as [[nDir r]|r|j]; intros H; try discriminate;
    injection H as <-; exact Hloop.
Qed.

End PassEffects.

(** X2. Only the potentiometer records are touched by [readAdc]; kinds and
    pending changes survive it. *)
Theorem readAdc_only_pots (w : Inputs) (regs : list Controller) :
  table_ok regs ->
  exists regs',
    readAdc w regs = Ok regs' /\ table_ok regs' /\
    pass_effect (Z.to_nat POT_START) (Z.to_nat (POT_START + POTS)) regs regs'.
Proof.
  intros Hok. destruct (readAdc_ok w regs Hok) as [regs' [H Hok']].
  exists regs'. repeat split; try assumption; apply (readAdc_effect w regs regs' H).
Qed.

Lemma readAdc_only_pots_witness :
  exists regs',
    readAdc (two_encoders_world 1000) encoder0_mid_turn = Ok regs' /\
    table_ok regs' /\
    pass_effect 0 64 encoder0_mid_turn regs'.
Proof.
  apply (readAdc_only_pots (two_encoders_world 1000) encoder0_mid_turn).
  reflexivity.
Defined.

(** X3. Only the switch records are touched by [readSwitch]. *)
Theorem readSwitch_only_switches (w : Inputs) (regs : list Controller) :
  table_ok regs ->
  exists regs',
    readSwitch w regs = Ok regs' /\ table_ok regs' /\
    pass_effect (Z.to_nat SWITCH_START) (Z.to_nat (SWITCH_START + SWITCHES))
                regs regs'.
Proof.
  intros Hok. destruct (readSwitch_ok w regs Hok) as [regs' [H Hok']].
  exists regs'. repeat split; try assumption; apply (readSwitch_effect w regs regs' H).
Qed.

Lemma readSwitch_only_switches_witness :
  exists regs',
    readSwitch (two_encoders_world 1000) encoder0_mid_turn = Ok regs' /\
    table_ok regs' /\
    pass_effect 64 104 encoder0_mid_turn regs'.
Proof.
  apply (readSwitch_only_switches (two_encoders_world 1000) encoder0_mid_turn).
  reflexivity.
Defined.

(** X4. Only the encoder records are touched by [readEncoder]. *)
Theorem readEncoder_only_encoders (w : Inputs) (regs : list Controller) :
  table_ok regs ->
  exists regs',
    readEncoder w regs = Ok regs' /\ table_ok regs' /\
    pass_effect (Z.to_nat ENCODER_START) (Z.to_nat (ENCODER_START + ENCODERS))
                regs regs'.
Proof.
  intros Hok. destruct (readEncoder_ok w regs Hok) as [regs' [H Hok']].
  exists regs'. repeat split; try assumption;
    apply (readEncoder_effect w regs regs' H).
Qed.

Lemma readEncoder_only_encoders_witness :
  exists regs',
    readEncoder (two_encoders_world 1000) encoder0_mid_turn = Ok regs' /\
    table_ok regs' /\
    pass_effect 104 144 encoder0_mid_turn regs'.
Proof.
  apply (readEncoder_only_encoders (two_encoders_world 1000) encoder0_mid_turn).
  reflexivity.
Defined.

(** ** The interrupt line *)

Lemma getDirty_state (s s' : State) (k : Z) :
  getDirty s = Ok (k, s') -> exists level, s' = writeInterrupt level s.
Proof.
  unfold getDirty.
  destruct (for_loop _ (g_nLastRead s) _ _ _) as [u|k0|j].
  - destruct (for_loop _ 0 _ _ _) as [u'|k0|j]; intros H; try discriminate;
      injection H as <- <-; eauto.
  - intros H. injection H as <- <-. eauto.
  - discriminate.
Qed.

Lemma getDirty_line (s : State) :
  state_ok s ->
  exists k s',
    getDirty s = Ok (k, s') /\
    ((k = 0 /\ s' = writeInterrupt HIGH s /\ ~ some_dirty (g_anControllers s)) \/
     (1 <= k <= MAX_CONTROLLERS /\ s' = writeInterrupt LOW s /\
      exists c, g_anControllers s !! Z.to_nat (k - 1) = Some c /\ dirty c = true)).
Proof.
  intros [Hok Hcur]. rewrite getDirty_correct by assumption.
  assert (HM : MAX_CONTROLLERS = 144) by reflexivity.
  destruct (first_dirty _ _) as [j|] eqn:Hfirst.
  - eexists _, _. split; [reflexivity|]. right.
    apply first_dirty_Some in Hfirst as [c [Hc Hd]].
    pose proof (lookup_lt_Some _ _ _ Hc) as Hlt. unfold table_ok in Hok.
    split; [lia|]. split; [reflexivity|]. exists c.
    replace (Z.to_nat (Z.of_nat j + 1 - 1)) with j by lia. auto.
  - eexists _, _. split; [reflexivity|]. left.
    split; [reflexivity|]. split; [reflexivity|]. intros [i [c [Hc Hd]]].
    assert (Hle : (Z.to_nat (g_nLastRead s) <= Z.to_nat MAX_CONTROLLERS)%nat) by lia.
    rewrite (first_dirty_None _ _ Hok Hle Hfirst c) in Hd; [discriminate|].
    eapply list_elem_of_lookup_2. exact Hc.
Qed.

(** X6. One iteration of [loop] from a state whose cursor is usable returns;
    the cursor and the selection are untouched, every record keeps its
    kind and its pending change, and the interrupt line ends up low
    exactly when some record is dirty. *)
Theorem loop_effect (w : Inputs) (s : State) :
  state_ok s ->
  exists s',
    loop w s = Ok s' /\
    g_nLastRead s' = g_nLastRead s /\
    g_nI2Cregister s' = g_nI2Cregister s /\
    Forall2 keeps_kind_and_change (g_anControllers s) (g_anControllers s') /\
    (InterruptLevel s' = LOW <-> some_dirty (g_anControllers s')) /\
    (InterruptLevel s' = HIGH <-> ~ some_dirty (g_anControllers s')).
Proof.
  intros [Hok Hcur]. unfold loop.
  destruct (readAdc_ok w _ Hok) as [regs1 [H1 Hok1]]. rewrite H1. cbn [mbind Res_bind].
  destruct (readSwitch_ok w _ Hok1) as [regs2 [H2 Hok2]]. rewrite H2. cbn [mbind Res_bind].
  destruct (readEncoder_ok w _ Hok2) as [regs3 [H3 Hok3]]. rewrite H3. cbn [mbind Res_bind].
  destruct (getDirty_line (set_controllers regs3 s)) as [k [s' [Hg Hk]]].
  { split; assumption. }
  rewrite Hg. cbn [mbind Res_bind]. exists s'. split; [reflexivity|].
  assert (Hall : Forall2 keeps_kind_and_change (g_anControllers s) regs3).
  { apply readAdc_effect in H1 as [A1 _]. apply readSwitch_effect in H2 as [A2 _].
    apply readEncoder_effect in H3 as [A3 _].
    eapply Forall2_trans; [|eapply Forall2_trans; [|exact A1|exact A2]|exact A3];
      intros a b c; apply keeps_trans. }
  destruct Hk as [[_ [-> Hclean]]|[_ [-> [c [Hc Hd]]]]]; cbn in *.
  - repeat split; intros;
      first [reflexivity | assumption | discriminate | contradiction].
  - assert (Hsome : some_dirty regs3) by (eexists _, c; eauto).
    repeat split; intros;
      first [reflexivity | assumption | discriminate | contradiction].
Qed.

Lemma loop_effect_witness :
  exists s',
    loop (two_encoders_world 1000) (mkState 0 0 encoder0_mid_turn HIGH) = Ok s' /\
    g_nLastRead s' = 0 /\
    g_nI2Cregister s' = 0 /\
    Forall2 keeps_kind_and_change encoder0_mid_turn (g_anControllers s') /\
    (InterruptLevel s' = LOW <-> some_dirty (g_anControllers s')) /\
    (InterruptLevel s' = HIGH <-> ~ some_dirty (g_anControllers s')).
Proof.
  apply (loop_effect (two_encoders_world 1000) (mkState 0 0 encoder0_mid_turn HIGH)).
  split; [reflexivity | closed_arith].
Defined.

(** ** What one event does to the table *)

(** An event leaves the table alone, or it is a pass, or it is the value
    response for the selected register, which replaces that one record. *)
Lemma step_table_cases (e : Event) (s s' : State) (out : list Z) :
  step e s = Ok (out, s') ->
  g_anControllers s' = g_anControllers s
  \/ (exists w, e = Pass w /\
        Forall2 keeps_kind_and_change (g_anControllers s) (g_anControllers s'))
  \/ (e = Request /\ 1 <= u8 (g_nI2Cregister s) <= MAX_CONTROLLERS /\
      exists c,
        g_anControllers s !! Z.to_nat (u8 (g_nI2Cregister s) - 1) = Some c /\
        g_anControllers s' =
          <[Z.to_nat (u8 (g_nI2Cregister s) - 1) :=
              set_dirty false (snd (getValue c))]> (g_anControllers s)).
Proof.
  destruct e as [nBytes rx| |w]; cbn [step].
  - intros H. injection H as _ <-. left. unfold onI2Creceive.
    destruct (nBytes <? 0); reflexivity.
  - unfold onI2Crequest. destruct (negb (g_nI2Cregister s =? 0)).
    + unfold sendValue. pose proof (u8_range (g_nI2Cregister s)) as Hr.
      destruct (Z.eqb_spec (u8 (g_nI2Cregister s)) 0) as [H0|H0].
      { cbn. intros H. injection H as _ <-. left. reflexivity. }
      destruct (Z.gtb_spec (u8 (g_nI2Cregister s)) MAX_CONTROLLERS) as [Hgt|Hle].
      { cbn. intros H. injection H as _ <-. left. reflexivity. }
      cbn [orb]. rewrite (u8_small (u8 (g_nI2Cregister s) - 1)) by lia.
      destruct (ctl_at _ _) as [c|j] eqn:Hat; cbn [mbind Res_bind]; [|discriminate].
      apply ctl_at_Ok in Hat as [_ Hc].
      destruct (getValue c) as [nValue c'] eqn:Hget.
      destruct (getDirty _) as [[k s1]|j] eqn:Hg; cbn [mbind Res_bind]; [|discriminate].
      intros H. injection H as _ <-.
      apply getDirty_state in Hg as [level ->].
      right; right. split; [reflexivity|]. split; [lia|].
      exists c. split; [exact Hc|]. rewrite Hget. reflexivity.
    + destruct (getDirty s) as [[k s1]|j] eqn:Hg; cbn [mbind Res_bind]; [|discriminate].
      intros H. injection H as _ <-.
      apply getDirty_state in Hg as [level ->]. left. reflexivity.
  - unfold loop.
    destruct (readAdc w _) as [regs1|j] eqn:H1; cbn [mbind Res_bind]; [|discriminate].
    destruct (readSwitch w _) as [regs2|j] eqn:H2; cbn [mbind Res_bind]; [|discriminate].
    destruct (readEncoder w _) as [regs3|j] eqn:H3; cbn [mbind Res_bind]; [|discriminate].
    destruct (getDirty _) as [[k s1]|j] eqn:Hg; cbn [mbind Res_bind]; [|discriminate].
    intros H. injection H as _ <-.
    apply getDirty_state in Hg as [level ->].
    right; left. exists w. split; [reflexivity|]. cbn.
    apply readAdc_effect in H1 as [A1 _]. apply readSwitch_effect in H2 as [A2 _].
    apply readEncoder_effect in H3 as [A3 _].
    eapply Forall2_trans; [|eapply Forall2_trans; [|exact A1|exact A2]|exact A3];
      intros a b c; apply keeps_trans.
Qed.

Lemma keeps_kinds (regs regs' : list Controller) :
  Forall2 keeps_kind_and_change regs regs' -> type <$> regs' = type <$> regs.
Proof.
  intros Hall. induction Hall as [|c c' l l' [Hty _] _ IH]; [reflexivity|].
  cbn. rewrite Hty, IH. reflexivity.
Qed.

Lemma step_kinds (e : Event) (s s' : State) (out : list Z) :
  step e s = Ok (out, s') ->
  type <$> g_anControllers s' = type <$> g_anControllers s.
Proof.
  intros H. apply step_table_cases in H as [->|[[w [_ Hall]]|[_ [_ [c [Hc ->]]]]]].
  - reflexivity.
  - apply keeps_kinds. exact Hall.
  - rewrite list_fmap_insert. apply list_insert_id.
    rewrite list_lookup_fmap, Hc. cbn. f_equal.
    change (type (set_dirty false (snd (getValue c)))) with (type (snd (getValue c))).
    symmetry. apply getValue_keeps_type.
Qed.

(** X7. Whatever the master sends and the inputs do, every record keeps the
    kind it had. *)
Theorem kinds_immutable (es : list Event) :
  forall s s' : State,
    run es s = Ok s' ->
    type <$> g_anControllers s' = type <$> g_anControllers s.
Proof.
  induction es as [|e es IH]; intros s s' H.
  - injection H as <-. reflexivity.
  - cbn [run] in H. destruct (step e s) as [[out s1]|j] eqn:Hstep;
      cbn [mbind Res_bind] in H; [|discriminate].
    rewrite (IH s1 s' H). eapply step_kinds. exact Hstep.
Qed.

Lemma kinds_immutable_witness :
  exists s',
    run [Pass (two_encoders_world 1000); Receive 1 [105]; Request; Receive 1 [200];
         Request] init_state = Ok s' /\
    type <$> g_anControllers s' = type <$> init_controllers.
Proof.
  eexists. split; [vm_compute; reflexivity|].
  apply (kinds_immutable
           [Pass (two_encoders_world 1000); Receive 1 [105]; Request;
            Receive 1 [200]; Request] init_state).
  vm_compute. reflexivity.
Defined.

(** X8. A pending change is dropped by nothing but the value response for that
    very register: if a record is dirty before an event and clean after
    it, the event is a request and the selected register is the address of
    that record. *)
Theorem dirty_cleared_only_by_read (e : Event) (s s' : State) (out : list Z)
    (i : nat) (c c' : Controller) :
  step e s = Ok (out, s') ->
  g_anControllers s !! i = Some c -> dirty c = true ->
  g_anControllers s' !! i = Some c' -> dirty c' = false ->
  e = Request /\ u8 (g_nI2Cregister s) = Z.of_nat i + 1.
Proof.
  intros H Hc Hd Hc' Hd'.
  apply step_table_cases in H as [Heq|[[w [_ Hall]]|[He [Hr [c0 [Hc0 Heq]]]]]].
  - rewrite Heq, Hc in Hc'. injection Hc' as <-. congruence.
  - destruct (Forall2_lookup_lr _ _ _ _ _ _ Hall Hc Hc') as [_ Hk].
    rewrite (Hk Hd) in Hd'. discriminate.
  - split; [exact He|].
    destruct (Nat.eq_dec (Z.to_nat (u8 (g_nI2Cregister s) - 1)) i) as [Hi|Hi]; [lia|].
    rewrite Heq, list_lookup_insert_ne, Hc in Hc' by exact Hi.
    injection Hc' as <-. congruence.
Qed.

Lemma dirty_cleared_only_by_read_witness :
  Request = Request /\
  u8 (g_nI2Cregister (mkState 105 105 encoder0_turned_back LOW)) = Z.of_nat 104 + 1.
Proof.
  apply (dirty_cleared_only_by_read Request
           (mkState 105 105 encoder0_turned_back LOW)
           (mkState 105 0 init_controllers HIGH) [253; 255] 104
           (mkController true (-3) 0 0 CONTROLLER_TYPE_ENCODER 0)
           (init_controller CONTROLLER_TYPE_ENCODER)); reflexivity.
Defined.

(** ** More on the change scan *)

(** X9. With a usable cursor the scan looks at every record once, in the order
    [scan_order], and reports the first dirty one. *)
Theorem getDirty_rotating_scan (s : State) :
  table_ok (g_anControllers s) ->
  0 <= g_nLastRead s <= MAX_CONTROLLERS ->
  NoDup (scan_order (Z.to_nat (g_nLastRead s))) /\
  (forall i : nat, i ∈ scan_order (Z.to_nat (g_nLastRead s)) <->
                   (i < Z.to_nat MAX_CONTROLLERS)%nat) /\
  getDirty s =
    match find (is_dirty_at (g_anControllers s))
               (scan_order (Z.to_nat (g_nLastRead s))) with
    | Some j => Ok (Z.of_nat j + 1, writeInterrupt LOW s)
    | None => Ok (0, writeInterrupt HIGH s)
    end.
Proof.
  intros Hok Hcur. assert (HM : MAX_CONTROLLERS = 144) by reflexivity.
  split; [apply scan_order_NoDup; lia|].
  split; [intros i; apply scan_order_complete; lia|].
  rewrite getDirty_correct by assumption. unfold first_dirty.
  destruct (find _ _); reflexivity.
Qed.

Lemma getDirty_rotating_scan_witness :
  NoDup (scan_order 105) /\
  (forall i : nat, i ∈ scan_order 105 <-> (i < 144)%nat) /\
  getDirty (mkState 105 0 encoder0_turned_back HIGH) =
    Ok (105, writeInterrupt LOW (mkState 105 0 encoder0_turned_back HIGH)).
Proof.
  apply (getDirty_rotating_scan (mkState 105 0 encoder0_turned_back HIGH)).
  - reflexivity.
  - closed_arith.
Defined.

Lemma probe_loop_found (regs : list Controller) (n : nat) :
  forall (i : Z) (m j : nat),
    0 <= i ->
    i + Z.of_nat m <= Z.of_nat (length regs) ->
    (m <= n)%nat ->
    i + Z.of_nat n <= 255 ->
    find (is_dirty_at regs) (seq (Z.to_nat i) m) = Some j ->
    for_loop n i 1 (dirty_probe regs) tt = Return (Z.of_nat j + 1).
Proof.
  induction n as [|n IH]; intros i m j Hi Hlen Hm Hmax Hfind.
  - destruct m; [discriminate | lia].
  - destruct m as [|m]; [discriminate|].
    cbn [for_loop]. cbn [seq find] in Hfind. unfold dirty_probe at 1.
    destruct (ctl_at_in regs i) as [c [Hc Hat]]; [lia|].
    rewrite Hat. unfold is_dirty_at at 1 in Hfind. rewrite Hc in Hfind.
    destruct (dirty c).
    + injection Hfind as <-. rewrite u8_small by lia.
      rewrite Z2Nat.id by lia. reflexivity.
    + rewrite u8_small by lia. apply (IH (i + 1) m j); try lia.
      replace (Z.to_nat (i + 1)) with (S (Z.to_nat i)) by lia. exact Hfind.
Qed.

(** X10. With the cursor beyond the table, where an out-of-range address byte
    leaves it, the scan still stays inside the table as long as some record
    is dirty: it reports the dirty record of lowest address. *)
Theorem getDirty_cursor_beyond_finds_dirty (s : State) (j : nat) :
  table_ok (g_anControllers s) ->
  MAX_CONTROLLERS < g_nLastRead s <= 255 ->
  find (is_dirty_at (g_anControllers s)) (seq 0 (Z.to_nat MAX_CONTROLLERS)) = Some j ->
  getDirty s = Ok (Z.of_nat j + 1, writeInterrupt LOW s).
Proof.
  intros Hok Hcur Hfind. unfold table_ok in Hok.
  assert (HM : MAX_CONTROLLERS = 144) by reflexivity.
  unfold getDirty. rewrite !loop_count_1.
  replace (Z.to_nat (MAX_CONTROLLERS - g_nLastRead s)) with 0%nat by lia.
  cbn [for_loop].
  rewrite (probe_loop_found _ _ 0 (Z.to_nat MAX_CONTROLLERS) j); try lia;
    [reflexivity | exact Hfind].
Qed.

Lemma getDirty_cursor_beyond_finds_dirty_witness :
  getDirty (mkState 200 0 encoder0_turned_back HIGH) =
  Ok (105, writeInterrupt LOW (mkState 200 0 encoder0_turned_back HIGH)).
Proof.
  apply (getDirty_cursor_beyond_finds_dirty
           (mkState 200 0 encoder0_turned_back HIGH) 104).
  - reflexivity.
  - closed_arith.
  - reflexivity.
Defined.

(** ** More on the bus handlers *)

(** X11. The receive buffer at its edges: a negative byte count leaves the state
    alone; only the first byte of the buffer counts; and after a receive
    with an empty buffer, where [Wire.read] yields -1, the next request
    writes nothing, keeps the table, clears the selection and leaves the
    cursor at 255. *)
Theorem receive_buffer_edges (s : State) (nBytes : Z) :
  (nBytes < 0 -> forall rx, onI2Creceive nBytes rx s = s) /\
  (forall b rest, onI2Creceive nBytes (b :: rest) s = onI2Creceive nBytes [b] s) /\
  (0 <= nBytes ->
     onI2Crequest (onI2Creceive nBytes [] s) =
     Ok ([], mkState 255 0 (g_anControllers s) (InterruptLevel s))).
Proof.
  split; [|split].
  - intros Hn rx. unfold onI2Creceive.
    destruct (Z.ltb_spec nBytes 0); [reflexivity | lia].
  - reflexivity.
  - intros Hn. unfold onI2Creceive.
    destruct (Z.ltb_spec nBytes 0); [lia | reflexivity].
Qed.

Lemma receive_buffer_edges_witness :
  onI2Creceive (-1) [7] init_state = init_state /\
  onI2Crequest (onI2Creceive 0 [] init_state) =
    Ok ([], mkState 255 0 init_controllers LOW).
Proof.
  destruct (receive_buffer_edges init_state (-1)) as [Hneg _].
  destruct (receive_buffer_edges init_state 0) as [_ [_ Hempty]].
  split; [apply Hneg; reflexivity | apply Hempty; discriminate].
Defined.

(** X12. Address 0 restarts the scan: after a receive of 0 the next request
    answers with the address of the dirty record of lowest index, or with
    0, and sets the interrupt line accordingly. *)
Theorem receive_zero_scans_from_start (s : State) (nBytes : Z) (rest : list Z) :
  table_ok (g_anControllers s) ->
  0 <= nBytes ->
  onI2Crequest (onI2Creceive nBytes (0 :: rest) s) =
  match find (is_dirty_at (g_anControllers s)) (seq 0 (Z.to_nat MAX_CONTROLLERS)) with
  | Some j => Ok ([Z.of_nat j + 1], mkState 0 0 (g_anControllers s) LOW)
  | None => Ok ([0], mkState 0 0 (g_anControllers s) HIGH)
  end.
Proof.
  intros Hok Hn. unfold onI2Creceive.
  destruct (Z.ltb_spec nBytes 0); [lia|]. cbn [Wire_read].
  unfold onI2Crequest. cbn [g_nI2Cregister set_lastRead set_register Z.eqb negb].
  rewrite getDirty_correct; [|exact Hok|closed_arith].
  unfold first_dirty, scan_order. cbn [g_nLastRead g_anControllers].
  change (u8 0) with 0. change (Z.to_nat 0) with 0%nat.
  rewrite Nat.sub_0_r. cbn [seq]. rewrite app_nil_r.
  destruct (find _ _); reflexivity.
Qed.

Lemma receive_zero_scans_from_start_witness :
  onI2Crequest (onI2Creceive 1 [0] (mkState 120 7 encoder0_turned_back HIGH)) =
  Ok ([105], mkState 0 0 encoder0_turned_back LOW).
Proof.
  apply (receive_zero_scans_from_start
           (mkState 120 7 encoder0_turned_back HIGH) 1 []).
  - reflexivity.
  - discriminate.
Defined.

(** ** Serving the changes *)

Lemma serve_one_cases (s : State) :
  state_ok s -> g_nI2Cregister s = 0 ->
  (serve_one s = Ok (0, [], writeInterrupt HIGH s) /\
   ~ some_dirty (g_anControllers s))
  \/ (exists k c s2,
        1 <= k <= MAX_CONTROLLERS /\
        g_anControllers s !! Z.to_nat (k - 1) = Some c /\ dirty c = true /\
        serve_one s =
          Ok (k, [fst (getValue c) mod 256; (fst (getValue c) / 256) mod 256], s2) /\
        g_anControllers s2 =
          <[Z.to_nat (k - 1) := set_dirty false (snd (getValue c))]>
            (g_anControllers s) /\
        g_nLastRead s2 = k /\
        g_nI2Cregister s2 = 0 /\
        (InterruptLevel s2 = LOW <-> some_dirty (g_anControllers s2))).
Proof.
  intros Hs Hsel. pose proof Hs as [Hok Hcur].
  assert (HM : MAX_CONTROLLERS = 144) by reflexivity.
  destruct (getDirty_line s Hs) as [k [s1 [Hg Hk]]].
  assert (Hidle : onI2Crequest s = Ok ([k], s1)).
  { unfold onI2Crequest. rewrite Hsel. cbn [Z.eqb negb]. rewrite Hg. reflexivity. }
  unfold serve_one. rewrite Hidle. cbn [mbind Res_bind].
  destruct Hk as [[-> [-> Hclean]]|[Hk [-> [c [Hc Hd]]]]].
  - left. split; [reflexivity | exact Hclean].
  - right. destruct (Z.eqb_spec k 0) as [H0|_]; [lia|].
    assert (Hrecv : onI2Creceive 1 [k] (writeInterrupt LOW s) =
                    mkState k k (g_anControllers s) LOW).
    { unfold onI2Creceive. cbn. rewrite u8_small by lia. reflexivity. }
    rewrite Hrecv.
    destruct (onI2Crequest_value (mkState k k (g_anControllers s) LOW) k c)
      as [k' [s2 [Hg2 [Hregs [Hlast [_ Hreq]]]]]];
      [exact Hok | cbn; lia | exact Hk | reflexivity | exact Hc |].
    rewrite Hreq. cbn [mbind Res_bind].
    assert (Hline : InterruptLevel s2 = LOW <-> some_dirty (g_anControllers s2)).
    { match type of Hg2 with
      | getDirty ?st = _ => destruct (getDirty_line st) as [k2 [s2' [Hg2' Hk2]]]
      end.
      { split; [|cbn; lia]. unfold table_ok. cbn. rewrite length_insert. exact Hok. }
      rewrite Hg2 in Hg2'. injection Hg2' as <- <-.
      destruct Hk2 as [[_ [Hs2 Hclean]]|[_ [Hs2 [c2 [Hc2 Hd2]]]]].
      - rewrite Hs2 at 1. rewrite Hregs. cbn in Hclean |- *.
        split; [discriminate | contradiction].
      - rewrite Hs2 at 1. rewrite Hregs. cbn in Hc2 |- *.
        split; [|reflexivity]. intros _. eexists _, c2. eauto. }
    exists k, c, (set_register 0 s2). repeat split; try assumption; try lia;
      apply Hline.
Qed.

(** X15. One exchange of the master with a device that has no register
    selected: either no record is dirty, the answer is 0 and the interrupt
    line goes high; or the answer is the address of a dirty record, the
    read that follows yields the two bytes of that record's value, marks
    it clean, leaves the cursor behind it, and the interrupt line stays
    low exactly when another record is still dirty. *)
Theorem scan_report_then_read (s : State) :
  state_ok s -> g_nI2Cregister s = 0 ->
  (serve_one s = Ok (0, [], writeInterrupt HIGH s) /\
   ~ some_dirty (g_anControllers s))
  \/ (exists k c s2,
        dirty_address (g_anControllers s) k /\
        g_anControllers s !! Z.to_nat (k - 1) = Some c /\
        serve_one s =
          Ok (k, [fst (getValue c) mod 256; (fst (getValue c) / 256) mod 256], s2) /\
        g_anControllers s2 =
          <[Z.to_nat (k - 1) := set_dirty false (snd (getValue c))]>
            (g_anControllers s) /\
        g_nLastRead s2 = k /\
        g_nI2Cregister s2 = 0 /\
        (InterruptLevel s2 = LOW <-> some_dirty (g_anControllers s2))).
Proof.
  intros Hs Hsel.
  destruct (serve_one_cases s Hs Hsel)
    as [H|[k [c [s2 [Hk [Hc [Hd [H1 [H2 [H3 [H4 H5]]]]]]]]]]]; [left; exact H|].
  right. exists k, c, s2. repeat split; try assumption; try apply H5.
  exists c. repeat split; [lia | exact Hc | exact Hd].
Qed.

Lemma scan_report_then_read_witness :
  (serve_one (mkState 0 0 encoder0_turned_back LOW) =
     Ok (0, [], writeInterrupt HIGH (mkState 0 0 encoder0_turned_back LOW)) /\
   ~ some_dirty encoder0_turned_back)
  \/ (exists k c s2,
        dirty_address encoder0_turned_back k /\
        encoder0_turned_back !! Z.to_nat (k - 1) = Some c /\
        serve_one (mkState 0 0 encoder0_turned_back LOW) =
          Ok (k, [fst (getValue c) mod 256; (fst (getValue c) / 256) mod 256], s2) /\
        g_anControllers s2 =
          <[Z.to_nat (k - 1) := set_dirty false (snd (getValue c))]>
            encoder0_turned_back /\
        g_nLastRead s2 = k /\
        g_nI2Cregister s2 = 0 /\
        (InterruptLevel s2 = LOW <-> some_dirty (g_anControllers s2))).
Proof.
  apply (scan_report_then_read (mkState 0 0 encoder0_turned_back LOW)).
  - split; [reflexivity | closed_arith].
  - reflexivity.
Defined.

Lemma dirty_count_insert_clean (regs : list Controller) :
  forall (i : nat) (c c' : Controller),
    regs !! i = Some c -> dirty c = true -> dirty c' = false ->
    (dirty_count (<[i := c']> regs) + 1 = dirty_count regs)%nat.
Proof.
  unfold dirty_count.
  induction regs as [|a regs IH]; intros i c c' Hc Hd Hd'; [discriminate|].
  destruct i as [|i]; cbn in Hc.
  - injection Hc as ->. change (<[0%nat := c']> (c :: regs)) with (c' :: regs).
    rewrite !filter_cons.
    destruct (decide (dirty c' = true)) as [H|_]; [congruence|].
    destruct (decide (dirty c = true)) as [_|H]; [|contradiction].
    cbn [length]. lia.
  - change (<[S i := c']> (a :: regs)) with (a :: <[i := c']> regs).
    rewrite !filter_cons. specialize (IH i c c' Hc Hd Hd').
    destruct (decide (dirty a = true)); cbn [length]; lia.
Qed.

(** X16. The master keeps asking and reading until the answer is 0.  When it
    is allowed more exchanges than there are dirty records, it reads every
    record that was dirty exactly once and no other, and it leaves the
    table clean, the selection empty and the interrupt line high. *)
Theorem serve_reads_every_change (n : nat) :
  forall s : State,
    state_ok s -> g_nI2Cregister s = 0 ->
    (dirty_count (g_anControllers s) < n)%nat ->
    exists ks s',
      serve n s = Ok (ks, s') /\
      NoDup ks /\
      (forall k, k ∈ ks <-> dirty_address (g_anControllers s) k) /\
      ~ some_dirty (g_anControllers s') /\
      InterruptLevel s' = HIGH /\
      g_nI2Cregister s' = 0.
Proof.
  induction n as [|n IH]; intros s Hs Hsel Hcount; [lia|].
  pose proof Hs as [Hok Hcur]. assert (HM : MAX_CONTROLLERS = 144) by reflexivity.
  cbn [serve].
  destruct (serve_one_cases s Hs Hsel)
    as [[H Hclean]|[k [c [s2 [Hk [Hc [Hd [H [Hregs [Hlast [Hsel2 _]]]]]]]]]]];
    rewrite H; cbn [mbind Res_bind].
  - exists [], (writeInterrupt HIGH s). cbn. repeat split; try assumption.
    + constructor.
    + intros Hin. apply elem_of_nil in Hin. contradiction.
    + intros [c [_ [Hc Hd]]]. exfalso. apply Hclean. eexists _, c. eauto.
  - destruct (Z.eqb_spec k 0) as [H0|_]; [lia|].
    assert (Hlen : (Z.to_nat (k - 1) < length (g_anControllers s))%nat).
    { apply lookup_lt_Some in Hc. exact Hc. }
    assert (Hat : g_anControllers s2 !! Z.to_nat (k - 1) =
                  Some (set_dirty false (snd (getValue c)))).
    { rewrite Hregs. apply list_lookup_insert_eq. exact Hlen. }
    destruct (IH s2) as [ks [s' [Hserve [Hnd [Hmem [Hclean [Hline Hsel']]]]]]].
    { split; [|lia]. unfold table_ok. rewrite Hregs, length_insert. exact Hok. }
    { exact Hsel2. }
    { rewrite Hregs.
      pose proof (dirty_count_insert_clean (g_anControllers s) (Z.to_nat (k - 1)) c
                    (set_dirty false (snd (getValue c))) Hc Hd eq_refl). lia. }
    rewrite Hserve. cbn [mbind Res_bind].
    exists (k :: ks), s'. repeat split; try assumption.
    + constructor; [|exact Hnd]. intros Hin. apply Hmem in Hin as [c2 [_ [Hc2 Hd2]]].
      rewrite Hat in Hc2. injection Hc2 as <-. discriminate Hd2.
    + intros Hin. apply elem_of_cons in Hin as [->|Hin].
      * exists c. repeat split; [lia | exact Hc | exact Hd].
      * apply Hmem in Hin as [c2 [Hk2 [Hc2 Hd2]]].
        destruct (Nat.eq_dec (Z.to_nat (k - 1)) (Z.to_nat (k0 - 1))) as [He|Hne].
        { rewrite <- He, Hat in Hc2. injection Hc2 as <-. discriminate Hd2. }
        rewrite Hregs, list_lookup_insert_ne in Hc2 by exact Hne.
        exists c2. auto.
    + intros [c2 [Hk2 [Hc2 Hd2]]]. apply elem_of_cons.
      destruct (Z.eq_dec k0 k) as [->|Hne]; [left; reflexivity|right].
      apply Hmem. exists c2. repeat split; try assumption.
      rewrite Hregs, list_lookup_insert_ne by lia. exact Hc2.
Qed.

Lemma serve_reads_every_change_witness :
  exists ks s',
    serve 4 (mkState 100 0 three_changes LOW) = Ok (ks, s') /\
    NoDup ks /\
    (forall k, k ∈ ks <-> dirty_address three_changes k) /\
    ~ some_dirty (g_anControllers s') /\
    InterruptLevel s' = HIGH /\
    g_nI2Cregister s' = 0.
Proof.
  apply (serve_reads_every_change 4 (mkState 100 0 three_changes LOW)).
  - split; [reflexivity | closed_arith].
  - reflexivity.
  - vm_compute. lia.
Defined.

(** ** More on the potentiometer filter *)

Lemma adcSample_pot_ok (a now : Z) (c : Controller) :
  adc_reading a -> pot_ok c -> pot_ok (adcSample a now c).
Proof.
  unfold pot_ok. change ADC_FILTER_SAMPLES with 8. intros Ha [Hv Hc].
  unfold adcSample.
  destruct (_ <? Z.shiftl 1 ADC_MASK_BITS); [cbn; split; [exact Hv | lia]|].
  cbn [count set_count]. rewrite u8_small by lia. change ADC_FILTER_SAMPLES with 8.
  destruct (Z.ltb_spec (count c + 1) 8); cbn; split; try assumption; lia.
Qed.

Lemma adcRun_app (l1 l2 : list (Z * Z)) (c : Controller) :
  adcRun (l1 ++ l2) c = adcRun l2 (adcRun l1 c).
Proof. unfold adcRun. apply fold_left_app. Qed.

Lemma Forall_repeat {A : Type} (P : A -> Prop) (x : A) (n : nat) :
  P x -> Forall P (repeat x n).
Proof. intros H. induction n; cbn; constructor; assumption. Qed.

(** X18. A steady input is taken over: after [ADC_FILTER_SAMPLES] or more
    passes with the same reading, the stored value is that reading or
    within one mask unit of it, whatever the counter was before. *)
Theorem pot_tracks_steady_input (c : Controller) (a now : Z) (n : nat) :
  pot_ok c -> adc_reading a ->
  (Z.to_nat ADC_FILTER_SAMPLES <= n)%nat ->
  Z.abs (a - value (adcRun (repeat (a, now) n) c)) < mask_unit /\
  (value (adcRun (repeat (a, now) n) c) = a \/
   value (adcRun (repeat (a, now) n) c) = value c) /\
  count (adcRun (repeat (a, now) n) c) = 0.
Proof.
  unfold pot_ok. change ADC_FILTER_SAMPLES with 8. change mask_unit with 4.
  intros [Hv Hc] Ha Hn.
  destruct (Z.lt_ge_cases (Z.abs (a - value c)) 4) as [Hnoise|Hfar].
  - rewrite adcRun_noise by (apply Forall_repeat; exact Hnoise).
    destruct n as [|n]; [cbn in Hn; lia|]. cbn. auto.
  - set (k := Z.to_nat (7 - count c)).
    replace n with (k + (1 + (n - k - 1)))%nat by lia.
    rewrite !repeat_app, !adcRun_app.
    rewrite (adcRun_counting (repeat (a, now) k)); rewrite ?repeat_length;
      try assumption; try (change ADC_FILTER_SAMPLES with 8; lia);
      [|apply Forall_repeat; split; assumption].
    change (adcRun (repeat (a, now) 1) ?x) with (adcSample a now x).
    rewrite adcSample_accept; cbn [value count set_count]; try assumption;
      try (change ADC_FILTER_SAMPLES with 8; lia).
    rewrite adcRun_noise
      by (apply Forall_repeat; cbn; rewrite Z.sub_diag; reflexivity).
    destruct (repeat (a, now) (n - k - 1)); cbn; rewrite Z.sub_diag;
      (split; [reflexivity | split; [left; reflexivity | reflexivity]]).
Qed.

Lemma pot_tracks_steady_input_witness :
  Z.abs (100 - value (adcRun (repeat (100, 5) 9)
                        (mkController false 0 3 0 CONTROLLER_TYPE_POT 0))) < mask_unit /\
  (value (adcRun (repeat (100, 5) 9)
            (mkController false 0 3 0 CONTROLLER_TYPE_POT 0)) = 100 \/
   value (adcRun (repeat (100, 5) 9)
            (mkController false 0 3 0 CONTROLLER_TYPE_POT 0)) = 0) /\
  count (adcRun (repeat (100, 5) 9)
           (mkController false 0 3 0 CONTROLLER_TYPE_POT 0)) = 0.
Proof.
  apply (pot_tracks_steady_input
           (mkController false 0 3 0 CONTROLLER_TYPE_POT 0) 100 5 9).
  - split; closed_arith.
  - closed_arith.
  - vm_compute. lia.
Defined.

Lemma readAdc_pot_ok (w : Inputs) (regs regs' : list Controller) :
  (forall nMux pin, adc_reading (analogRead w nMux pin)) ->
  (forall i c, (i < Z.to_nat POTS)%nat -> regs !! i = Some c -> pot_ok c) ->
  readAdc w regs = Ok regs' ->
  forall i c, (i < Z.to_nat POTS)%nat -> regs' !! i = Some c -> pot_ok c.
Proof.
  intros Hw Hpots. unfold readAdc.
  set (P := fun r : list Controller =>
              forall i c, (i < Z.to_nat POTS)%nat -> r !! i = Some c -> pot_ok c).
  match goal with
  | |- match for_loop ?n ?i ?st ?body ?s with _ => _ end = _ -> _ =>
      assert (Hloop : match for_loop n i st body s with
                      | Next r => P r
                      | Return _ => True
                      | Oob _ => True
                      end)
  end.
  { apply (for_loop_inv_partial P (fun _ : unit => True)); [|lia|exact Hpots].
    intros nMux regs0 HnMux HP0.
    apply (for_loop_inv_partial P (fun _ : unit => True)); [|lia|exact HP0].
    intros nAdc regs1 HnAdc HP1. cbv zeta.
    pose proof (u8_range (nMux + nAdc * 8)) as Hpot.
    destruct (Z.ltb_spec (u8 (nMux + nAdc * 8)) POTS) as [Hlt|_]; [|exact HP1].
    unfold ctl_update.
    destruct (ctl_at regs1 _) as [c|j] eqn:Hat; cbn; [|exact I].
    apply ctl_at_Ok in Hat as [_ Hc].
    intros i c0 Hi Hc0.
    destruct (Nat.eq_dec (Z.to_nat (POT_START + u8 (nMux + nAdc * 8))) i) as [<-|Hne].
    - rewrite list_lookup_insert_eq in Hc0 by (eapply lookup_lt_Some; exact Hc).
      injection Hc0 as <-. apply adcSample_pot_ok; [apply Hw|].
      exact (HP1 _ c Hi Hc).
    - rewrite list_lookup_insert_ne in Hc0 by exact Hne. exact (HP1 i c0 Hi Hc0). }
  destruct (for_loop _ _ _ _ _) as [r|r|j]; intros H; try discriminate;
    injection H as <-; [exact Hloop | exact Hpots].
Qed.

(** X19. With a converter that delivers 12-bit readings, [readAdc] keeps every
    potentiometer record well-formed (the stored value is a reading, the
    counter is below the threshold), and what such a record reports over
    the bus is a number of [ADC_BITS] bits. *)
Theorem readAdc_keeps_pots_in_range (w : Inputs) (regs : list Controller) :
  (forall nMux pin, adc_reading (analogRead w nMux pin)) ->
  table_ok regs ->
  (forall i c, (i < Z.to_nat POTS)%nat -> regs !! i = Some c -> pot_ok c) ->
  exists regs',
    readAdc w regs = Ok regs' /\
    forall i c, (i < Z.to_nat POTS)%nat -> regs' !! i = Some c ->
      pot_ok c /\
      (type c = CONTROLLER_TYPE_POT -> 0 <= fst (getValue c) < 2 ^ ADC_BITS).
Proof.
  intros Hw Hok Hpots. destruct (readAdc_ok w regs Hok) as [regs' [H _]].
  exists regs'. split; [exact H|]. intros i c Hi Hc.
  pose proof (readAdc_pot_ok w regs regs' Hw Hpots H i c Hi Hc) as Hp.
  split; [exact Hp|]. intros Hty. rewrite getValue_pot by exact Hty. cbn [fst].
  destruct Hp as [[Hv0 Hv1] _]. change ADC_MASK_BITS with 2.
  rewrite Z.shiftr_div_pow2 by lia. change (2 ^ 2) with 4.
  change (2 ^ ADC_BITS) with 1024. split.
  - apply Z.div_pos; lia.
  - apply Z.div_lt_upper_bound; lia.
Qed.

Lemma readAdc_keeps_pots_in_range_witness :
  exists regs',
    readAdc (two_encoders_world 1000) init_controllers = Ok regs' /\
    forall i c, (i < Z.to_nat POTS)%nat -> regs' !! i = Some c ->
      pot_ok c /\
      (type c = CONTROLLER_TYPE_POT -> 0 <= fst (getValue c) < 2 ^ ADC_BITS).
Proof.
  apply (readAdc_keeps_pots_in_range (two_encoders_world 1000) init_controllers).
  - intros nMux pin. closed_arith.
  - reflexivity.
  - intros i c Hi Hc.
    assert (Hin : c ∈ take 64 init_controllers).
    { apply list_elem_of_lookup. exists i. rewrite lookup_take_lt; [exact Hc|].
      change (Z.to_nat POTS) with 64%nat in Hi. exact Hi. }
    change (take 64 init_controllers)
      with (repeat (init_controller CONTROLLER_TYPE_POT) 64) in Hin.
    apply list_elem_of_In, repeat_spec in Hin. subst c. split; closed_arith.
Defined.

(** ** More on the switch filter *)

(** X20. Contact bounce is swallowed: as long as the clock has not passed
    [time + DEBOUNCE_TIME] (and that sum does not wrap), no sample changes
    the record, whatever its level; the first sample of another level
    after that is taken over and stamped. *)
Theorem switch_ignores_bounce (c : Controller) (bounce : list (Z * Z * Z))
    (nValue now_test now_stamp : Z) :
  0 <= time c -> time c + DEBOUNCE_TIME < 4294967296 ->
  Forall (fun '(_, t, _) => t <= time c + DEBOUNCE_TIME) bounce ->
  switchRun bounce c = c /\
  (nValue <> value c -> time c + DEBOUNCE_TIME < now_test ->
   switchRun (bounce ++ [(nValue, now_test, now_stamp)]) c =
   mkController true nValue (count c) (code c) (type c) now_stamp).
Proof.
  intros H0 H1 Hb.
  assert (Hrun : switchRun bounce c = c).
  { induction bounce as [|[[lvl t] t'] bounce IH]; [reflexivity|].
    inversion Hb as [|x l Hx Hrest]; subst.
    change (switchRun ((lvl, t, t') :: bounce) c)
      with (switchRun bounce (switchSample lvl t t' c)).
    rewrite switchSample_no_wrap by assumption.
    destruct (Z.gtb_spec (t - time c) DEBOUNCE_TIME) as [Hgt|_]; [lia|].
    rewrite andb_false_r. apply IH. exact Hrest. }
  split; [exact Hrun|]. intros Hne Hlate.
  unfold switchRun in *. rewrite fold_left_app, Hrun. cbn [fold_left].
  rewrite switchSample_no_wrap by assumption.
  destruct (Z.eqb_spec nValue (value c)) as [Heq|_]; [contradiction|].
  destruct (Z.gtb_spec (now_test - time c) DEBOUNCE_TIME) as [_|Hle]; [reflexivity|lia].
Qed.

Lemma switch_ignores_bounce_witness :
  switchRun [(1, 1010, 1010); (0, 1020, 1020); (1, 1050, 1050)]
    (mkController false 0 0 0 CONTROLLER_TYPE_SWITCH 1000) =
    mkController false 0 0 0 CONTROLLER_TYPE_SWITCH 1000 /\
  (1 <> 0 -> 1000 + DEBOUNCE_TIME < 1051 ->
   switchRun ([(1, 1010, 1010); (0, 1020, 1020); (1, 1050, 1050)] ++ [(1, 1051, 1052)])
     (mkController false 0 0 0 CONTROLLER_TYPE_SWITCH 1000) =
   mkController true 1 0 0 CONTROLLER_TYPE_SWITCH 1052).
Proof.
  apply (switch_ignores_bounce
           (mkController false 0 0 0 CONTROLLER_TYPE_SWITCH 1000)
           [(1, 1010, 1010); (0, 1020, 1020); (1, 1050, 1050)] 1 1051 1052).
  - closed_arith.
  - closed_arith.
  - repeat match goal with |- Forall _ _ => constructor end; closed_arith.
Defined.

(** ** More on the encoder decoder *)

Lemma history_shift (n d : Z) :
  0 <= d < 16 ->
  exists m, 0 <= m < 16 /\ u8 (Z.shiftl n 4) = 16 * m /\
            u8 (Z.shiftl (Z.lor (16 * m) d) 4) = 16 * d /\
            Z.lor (16 * m) d = 16 * m + d.
Proof.
  intros Hd. exists (n mod 16).
  pose proof (Z.mod_pos_bound n 16 ltac:(lia)) as Hm.
  split; [exact Hm|]. split.
  - unfold u8. rewrite Z.shiftl_mul_pow2 by lia.
    change (2 ^ 4) with 16. change 256 with (16 * 16).
    rewrite Z.mul_mod_distr_r by lia. lia.
  - assert (Hlor : Z.lor (16 * (n mod 16)) d = 16 * (n mod 16) + d).
    { assert (Hcases : forall m e, 0 <= m < 16 -> 0 <= e < 16 ->
                Z.lor (16 * m) e = 16 * m + e).
      { intros m e Hm' He.
        assert (Hm16 : m = 0 \/ m = 1 \/ m = 2 \/ m = 3 \/ m = 4 \/ m = 5 \/ m = 6 \/
                       m = 7 \/ m = 8 \/ m = 9 \/ m = 10 \/ m = 11 \/ m = 12 \/
                       m = 13 \/ m = 14 \/ m = 15) by lia.
        assert (He16 : e = 0 \/ e = 1 \/ e = 2 \/ e = 3 \/ e = 4 \/ e = 5 \/ e = 6 \/
                       e = 7 \/ e = 8 \/ e = 9 \/ e = 10 \/ e = 11 \/ e = 12 \/
                       e = 13 \/ e = 14 \/ e = 15) by lia.
        repeat (destruct Hm16 as [->|Hm16]);
          repeat (destruct He16 as [->|He16]); subst; reflexivity. }
      apply Hcases; assumption. }
    split; [|exact Hlor]. rewrite Hlor. unfold u8.
    rewrite Z.shiftl_mul_pow2 by lia. change (2 ^ 4) with 16.
    replace ((16 * (n mod 16) + d) * 16) with (16 * d + (n mod 16) * 256) by lia.
    rewrite Z.mod_add by lia. apply Z.mod_small. lia.
Qed.

(** An encoder at rest whose clock line rises while data is low: first
    quarter of a clockwise cycle. *)
Lemma encoderSample_cw_first (c : Controller) (t : Z) :
  code c = 0 ->
  exists m, 0 <= m < 16 /\
    encoderSample 1 0 t 0 c =
    (0, mkController (dirty c) (value c) (16 * m + 1) 1 (type c) (time c)).
Proof.
  intros Hcode. destruct (history_shift (count c) 1) as [m [Hm [Hsh [_ Hlor]]]]; [lia|].
  exists m. split; [exact Hm|].
  unfold encoderSample. rewrite Hcode. cbv zeta.
  cbn [Z.eqb Pos.eqb andb negb].
  change (u8 (Z.shiftl 0 2)) with 0.
  change (Z.land (Z.lor 0 1) 15) with 1.
  cbn [code count set_code set_count value time dirty type].
  change (tbl_at anValid 1) with 1. cbn [Z.eqb negb].
  rewrite Hsh, Hlor.
  destruct (Z.eqb_spec (16 * m + 1) 212) as [H|_]; [lia|].
  destruct (Z.eqb_spec (16 * m + 1) 23) as [H|_]; [lia|].
  cbn [Z.eqb negb]. reflexivity.
Qed.

(** Data rises as well: the clockwise cycle is complete. *)
Lemma encoderSample_cw_second (c : Controller) (t m : Z) :
  code c = 1 -> count c = 16 * m + 1 -> 0 <= m < 16 ->
  encoderSample 1 1 t 0 c =
  (1, mkController true (s32 (value c + tick t c)) 23 0 (type c) t).
Proof.
  intros Hcode Hcount Hm.
  assert (Hsh : u8 (Z.shiftl (16 * m + 1) 4) = 16).
  { unfold u8. rewrite Z.shiftl_mul_pow2 by lia. change (2 ^ 4) with 16.
    replace ((16 * m + 1) * 16) with (16 + m * 256) by lia.
    rewrite Z.mod_add by lia. reflexivity. }
  unfold encoderSample, tick. rewrite Hcode. cbv zeta.
  cbn [Z.eqb Pos.eqb andb negb].
  change (Z.land (Z.lor (Z.lor (u8 (Z.shiftl 1 2)) 2) 1) 15) with 7.
  cbn [code count set_code set_count value time dirty type].
  change (tbl_at anValid 7) with 1. cbn [Z.eqb negb].
  rewrite Hcount, Hsh. change (Z.lor 16 7) with 23.
  cbn [Z.eqb Pos.eqb negb].
  destruct (t >=? u32 (time c + ROT_THRESHOLD)); cbn; rewrite ?Z.mul_1_l; reflexivity.
Qed.

(** An encoder at rest whose clock and data lines are both high: the code
    is not a valid transition, the history is left alone. *)
Lemma encoderSample_ccw_first (c : Controller) (t : Z) :
  code c = 0 ->
  encoderSample 1 1 t 0 c =
  (0, mkController (dirty c) (value c) (count c) 3 (type c) (time c)).
Proof.
  intros Hcode. unfold encoderSample. rewrite Hcode. cbv zeta.
  cbn [Z.eqb Pos.eqb andb negb].
  change (Z.land (Z.lor (Z.lor (u8 (Z.shiftl 0 2)) 2) 1) 15) with 3.
  cbn [code count set_code set_count value time dirty type].
  change (tbl_at anValid 3) with 0. cbn [Z.eqb negb]. reflexivity.
Qed.

Lemma encoderSample_ccw_second (c : Controller) (t : Z) :
  code c = 3 ->
  exists m, 0 <= m < 16 /\
    encoderSample 1 0 t 0 c =
    (0, mkController (dirty c) (value c) (16 * m + 13) 13 (type c) (time c)).
Proof.
  intros Hcode. destruct (history_shift (count c) 13) as [m [Hm [Hsh [_ Hlor]]]]; [lia|].
  exists m. split; [exact Hm|].
  unfold encoderSample. rewrite Hcode. cbv zeta.
  cbn [Z.eqb Pos.eqb andb negb].
  change (Z.land (Z.lor (u8 (Z.shiftl 3 2)) 1) 15) with 13.
  cbn [code count set_code set_count value time dirty type].
  change (tbl_at anValid 13) with 1. cbn [Z.eqb negb].
  rewrite Hsh, Hlor.
  destruct (Z.eqb_spec (16 * m + 13) 212) as [H|_]; [lia|].
  destruct (Z.eqb_spec (16 * m + 13) 23) as [H|_]; [lia|].
  cbn [Z.eqb negb]. reflexivity.
Qed.

Lemma encoderSample_ccw_third (c : Controller) (t m : Z) :
  code c = 13 -> count c = 16 * m + 13 -> 0 <= m < 16 ->
  encoderSample 0 0 t 0 c =
  (-1, mkController true (s32 (value c + - tick t c)) 212 0 (type c) t).
Proof.
  intros Hcode Hcount Hm.
  assert (Hsh : u8 (Z.shiftl (16 * m + 13) 4) = 208).
  { unfold u8. rewrite Z.shiftl_mul_pow2 by lia. change (2 ^ 4) with 16.
    replace ((16 * m + 13) * 16) with (208 + m * 256) by lia.
    rewrite Z.mod_add by lia. reflexivity. }
  unfold encoderSample, tick. rewrite Hcode. cbv zeta.
  cbn [Z.eqb Pos.eqb andb negb].
  change (Z.land (u8 (Z.shiftl 13 2)) 15) with 4.
  cbn [code count set_code set_count value time dirty type].
  change (tbl_at anValid 4) with 1. cbn [Z.eqb negb].
  rewrite Hcount, Hsh. change (Z.lor 208 4) with 212.
  cbn [Z.eqb Pos.eqb negb].
  destruct (t >=? u32 (time c + ROT_THRESHOLD)); cbn; reflexivity.
Qed.

(** X21. The decoder on whole cycles, for an encoder at rest (phase code 0)
    with any history and any value, sampled with no direction left over
    from another encoder.  While the clock line stays low nothing happens.
    Clock high, then data high as well, counts one step up: the value
    grows by [tick] (1, or [ROT_FAST_SCALE] when the last step is less
    than [ROT_THRESHOLD] ms old), the record is dirty and back at rest.
    Both lines high, then data low, then both low counts one step down. *)
Theorem encoder_full_cycle (c : Controller) (nData t1 t2 t3 : Z) :
  code c = 0 ->
  encoderRun [(0, nData, t1)] c = c /\
  encoderRun [(1, 0, t1); (1, 1, t2)] c =
    mkController true (s32 (value c + tick t2 c)) 23 0 (type c) t2 /\
  encoderRun [(1, 1, t1); (1, 0, t2); (0, 0, t3)] c =
    mkController true (s32 (value c + - tick t3 c)) 212 0 (type c) t3.
Proof.
  intros Hcode. unfold encoderRun. cbn [fold_left]. split; [|split].
  - unfold encoderSample. rewrite Hcode. reflexivity.
  - destruct (encoderSample_cw_first c t1 Hcode) as [m [Hm H1]]. rewrite H1.
    cbn [snd]. rewrite (encoderSample_cw_second _ t2 m) by (try reflexivity; exact Hm).
    reflexivity.
  - rewrite (encoderSample_ccw_first c t1 Hcode). cbn [snd].
    destruct (encoderSample_ccw_second
                (mkController (dirty c) (value c) (count c) 3 (type c) (time c)) t2)
      as [m [Hm H2]]; [reflexivity|].
    rewrite H2. cbn [snd].
    rewrite (encoderSample_ccw_third _ t3 m) by (try reflexivity; exact Hm).
    reflexivity.
Qed.

Lemma encoder_full_cycle_witness :
  encoderRun [(0, 1, 100)] (mkController false 5 212 0 CONTROLLER_TYPE_ENCODER 95) =
    mkController false 5 212 0 CONTROLLER_TYPE_ENCODER 95 /\
  encoderRun [(1, 0, 100); (1, 1, 101)]
    (mkController false 5 212 0 CONTROLLER_TYPE_ENCODER 95) =
    mkController true 15 23 0 CONTROLLER_TYPE_ENCODER 101 /\
  encoderRun [(1, 1, 100); (1, 0, 101); (0, 0, 120)]
    (mkController false 5 212 0 CONTROLLER_TYPE_ENCODER 95) =
    mkController true 4 212 0 CONTROLLER_TYPE_ENCODER 120.
Proof.
  apply (encoder_full_cycle
           (mkController false 5 212 0 CONTROLLER_TYPE_ENCODER 95) 1 100 101 120).
  reflexivity.
Defined.

(** ** Initialisation *)

Lemma for_int_update (f : Controller -> Controller) (n : nat) :
  forall (i : Z) (regs : list Controller),
    0 <= i -> i + Z.of_nat n <= Z.of_nat (length regs) ->
    Z.of_nat (length regs) < 2147483648 ->
    exists regs',
      for_int n i (fun i r => ctl_update r i f) regs = Ok regs' /\
      length regs' = length regs /\
      forall j : nat,
        regs' !! j =
        if decide (Z.to_nat i <= j < Z.to_nat i + n)%nat
        then f <$> regs !! j else regs !! j.
Proof.
  induction n as [|n IH]; intros i regs Hi Hlen Hmax.
  - exists regs. split; [reflexivity|]. split; [reflexivity|].
    intros j. destruct (decide _) as [H|_]; [lia | reflexivity].
  - destruct (ctl_at_in regs i) as [c [Hc Hat]]; [lia|].
    assert (Hup : ctl_update regs i f = Ok (<[Z.to_nat i := f c]> regs)).
    { unfold ctl_update. rewrite Hat. reflexivity. }
    cbn [for_int]. cbv beta. rewrite Hup.
    cbn [mbind Res_bind]. rewrite s32_small by lia.
    destruct (IH (i + 1) (<[Z.to_nat i := f c]> regs)) as [regs' [Hrun [Hl Hlook]]];
      rewrite ?length_insert; try lia.
    exists regs'. split; [exact Hrun|]. rewrite length_insert in Hl.
    split; [exact Hl|]. intros j. rewrite Hlook.
    destruct (Nat.eq_dec (Z.to_nat i) j) as [<-|Hne].
    + rewrite list_lookup_insert_eq by (eapply lookup_lt_Some; exact Hc).
      destruct (decide _) as [H|_]; [lia|].
      destruct (decide _) as [_|H]; [|lia]. rewrite Hc. reflexivity.
    + rewrite list_lookup_insert_ne by exact Hne.
      destruct (decide (Z.to_nat (i + 1) <= j < Z.to_nat (i + 1) + n)%nat);
        destruct (decide (Z.to_nat i <= j < Z.to_nat i + S n)%nat);
        try reflexivity; lia.
Qed.

(** X1. [setup] gives every record of the table its kind by its index (the
    first [MAX_POTS] are potentiometers, the next [MAX_SWITCHES] switches,
    the rest encoders) and changes no other field; on the table as it is
    at power-on the result is [init_controllers]. *)
Theorem setup_assigns_kinds (regs : list Controller) :
  table_ok regs ->
  exists regs',
    setup regs = Ok regs' /\ table_ok regs' /\
    (forall (i : nat) (c : Controller),
       regs !! i = Some c -> regs' !! i = Some (set_type (kind_of_index i) c)) /\
    setup power_on_controllers = Ok init_controllers.
Proof.
  intros Hok. unfold table_ok in Hok. change MAX_CONTROLLERS with 144 in Hok.
  unfold setup. rewrite !loop_count_1.
  change (Z.to_nat (POT_START + MAX_POTS - POT_START)) with 64%nat.
  change (Z.to_nat (SWITCH_START + MAX_SWITCHES - SWITCH_START)) with 40%nat.
  change (Z.to_nat (ENCODER_START + MAX_ENCODERS - ENCODER_START)) with 40%nat.
  change POT_START with 0. change SWITCH_START with 64. change ENCODER_START with 104.
  destruct (for_int_update (set_type CONTROLLER_TYPE_POT) 64 0 regs)
    as [regs1 [H1 [L1 K1]]]; try lia.
  rewrite H1. cbn [mbind Res_bind].
  destruct (for_int_update (set_type CONTROLLER_TYPE_SWITCH) 40 64 regs1)
    as [regs2 [H2 [L2 K2]]]; try lia.
  rewrite H2. cbn [mbind Res_bind].
  destruct (for_int_update (set_type CONTROLLER_TYPE_ENCODER) 40 104 regs2)
    as [regs3 [H3 [L3 K3]]]; try lia.
  rewrite H3. exists regs3. split; [reflexivity|].
  split; [unfold table_ok; change MAX_CONTROLLERS with 144; lia|].
  split; [|vm_compute; reflexivity].
  intros i c Hc. pose proof (lookup_lt_Some _ _ _ Hc) as Hi.
  rewrite K3, K2, K1, Hc. unfold kind_of_index.
  change (Z.to_nat SWITCH_START) with 64%nat.
  change (Z.to_nat ENCODER_START) with 104%nat.
  change (Z.to_nat 64) with 64%nat. change (Z.to_nat 104) with 104%nat.
  change (Z.to_nat 0) with 0%nat.
  destruct (Nat.ltb_spec i 64); [|destruct (Nat.ltb_spec i 104)];
    repeat (destruct (decide _); try lia); reflexivity.
Qed.

Lemma setup_assigns_kinds_witness :
  exists regs',
    setup power_on_controllers = Ok regs' /\ table_ok regs' /\
    (forall (i : nat) (c : Controller),
       power_on_controllers !! i = Some c ->
       regs' !! i = Some (set_type (kind_of_index i) c)) /\
    setup power_on_controllers = Ok init_controllers.
Proof. apply (setup_assigns_kinds power_on_controllers). reflexivity. Defined.

(** ** The order of service *)

Lemma filter_ext_in {A : Type} (P Q : A -> Prop)
    `{!forall x, Decision (P x), !forall x, Decision (Q x)} (l : list A) :
  (forall x, x ∈ l -> (P x <-> Q x)) -> filter P l = filter Q l.
Proof.
  induction l as [|a l IH]; intros Hext; [reflexivity|].
  rewrite !filter_cons.
  assert (Ha : P a <-> Q a) by (apply Hext; left).
  rewrite IH by (intros x Hx; apply Hext; right; exact Hx).
  destruct (decide (P a)), (decide (Q a)); tauto || reflexivity.
Qed.

Lemma filter_none {A : Type} (P : A -> Prop) `{!forall x, Decision (P x)}
    (l : list A) :
  (forall x, x ∈ l -> ~ P x) -> filter P l = [].
Proof.
  induction l as [|a l IH]; intros Hnone; [reflexivity|].
  rewrite filter_cons_False by (apply Hnone; left).
  apply IH. intros x Hx. apply Hnone. right. exact Hx.
Qed.

Lemma seq_cut (a n k : nat) :
  (k <= n)%nat -> seq a n = seq a k ++ seq (a + k) (n - k).
Proof. intros H. rewrite <- seq_app. f_equal. lia. Qed.

Lemma seq_split (a n k : nat) :
  (k < n)%nat -> seq a n = seq a k ++ (a + k)%nat :: seq (S (a + k)) (n - k - 1).
Proof.
  intros H. rewrite (seq_cut a n k) by lia. f_equal.
  assert (E : (n - k = S (n - k - 1))%nat) by lia.
  rewrite E at 1. reflexivity.
Qed.

(** Reading the record the scan found turns the scan order by one place
    behind that record. *)
Lemma scan_order_split (cursor j : nat) :
  (cursor <= 144)%nat -> (j < 144)%nat ->
  exists pre post,
    scan_order cursor = pre ++ j :: post /\
    scan_order (S j) = post ++ pre ++ [j].
Proof.
  intros Hc Hj. unfold scan_order. change (Z.to_nat MAX_CONTROLLERS) with 144%nat.
  destruct (le_lt_dec cursor j) as [Hle|Hlt].
  - exists (seq cursor (j - cursor)), (seq (S j) (143 - j) ++ seq 0 cursor).
    assert (E1 : seq cursor (144 - cursor) =
                 seq cursor (j - cursor) ++ j :: seq (S j) (143 - j)).
    { rewrite (seq_split cursor (144 - cursor) (j - cursor)) by lia.
      replace (cursor + (j - cursor))%nat with j by lia.
      replace (144 - cursor - (j - cursor) - 1)%nat with (143 - j)%nat by lia.
      reflexivity. }
    assert (E2 : seq 0 (S j) = seq 0 cursor ++ seq cursor (j - cursor) ++ [j]).
    { rewrite (seq_cut 0 (S j) cursor) by lia. cbn [Nat.add]. f_equal.
      rewrite (seq_split cursor (S j - cursor) (j - cursor)) by lia.
      replace (cursor + (j - cursor))%nat with j by lia.
      replace (S j - cursor - (j - cursor) - 1)%nat with 0%nat by lia.
      reflexivity. }
    split.
    + rewrite E1, <- app_assoc. reflexivity.
    + rewrite E2. replace (144 - S j)%nat with (143 - j)%nat by lia.
      rewrite <- !app_assoc. reflexivity.
  - exists (seq cursor (144 - cursor) ++ seq 0 j), (seq (S j) (cursor - j - 1)).
    assert (E1 : seq 0 cursor = seq 0 j ++ j :: seq (S j) (cursor - j - 1)).
    { rewrite (seq_split 0 cursor j) by lia. reflexivity. }
    assert (E2 : seq (S j) (144 - S j) =
                 seq (S j) (cursor - j - 1) ++ seq cursor (144 - cursor)).
    { rewrite (seq_cut (S j) (144 - S j) (cursor - j - 1)) by lia.
      replace (S j + (cursor - j - 1))%nat with cursor by lia.
      replace (144 - S j - (cursor - j - 1))%nat with (144 - cursor)%nat by lia.
      reflexivity. }
    assert (E3 : seq 0 (S j) = seq 0 j ++ [j]).
    { rewrite (seq_split 0 (S j) j) by lia.
      replace (S j - j - 1)%nat with 0%nat by lia. reflexivity. }
    split.
    + rewrite E1, <- app_assoc. reflexivity.
    + rewrite E2, E3, <- !app_assoc. reflexivity.
Qed.

Lemma is_dirty_at_insert (regs : list Controller) (j x : nat) (c' : Controller) :
  (j < length regs)%nat ->
  is_dirty_at (<[j := c']> regs) x =
  if decide (x = j) then dirty c' else is_dirty_at regs x.
Proof.
  intros Hj. unfold is_dirty_at. destruct (decide (x = j)) as [->|Hne].
  - rewrite list_lookup_insert_eq by exact Hj. reflexivity.
  - rewrite list_lookup_insert_ne by congruence. reflexivity.
Qed.

(** The dirty records in scan order, before and after the first of them
    is read. *)
Lemma dirty_in_order_step (regs : list Controller) (cursor j : nat)
    (c' : Controller) :
  (cursor <= 144)%nat -> (j < length regs)%nat -> length regs = 144%nat ->
  first_dirty regs cursor = Some j -> dirty c' = false ->
  dirty_in_order regs (scan_order cursor) =
  j :: dirty_in_order (<[j := c']> regs) (scan_order (S j)).
Proof.
  intros Hc Hj Hlen Hfirst Hclean.
  destruct (scan_order_split cursor j Hc ltac:(lia)) as [pre [post [Hsplit Hnext]]].
  pose proof (scan_order_NoDup cursor) as Hnd.
  change (Z.to_nat MAX_CONTROLLERS) with 144%nat in Hnd. specialize (Hnd Hc).
  rewrite Hsplit in Hnd. apply NoDup_app in Hnd as [_ [Hdisj Hnd2]].
  apply NoDup_cons in Hnd2 as [Hjpost _].
  unfold first_dirty in Hfirst. rewrite Hsplit, find_app in Hfirst.
  assert (Hpre : forall x, x ∈ pre -> is_dirty_at regs x = false).
  { destruct (find (is_dirty_at regs) pre) as [x|] eqn:Hf.
    - injection Hfirst as ->. apply find_some in Hf as [Hin _].
      apply list_elem_of_In in Hin. exfalso. apply (Hdisj j Hin). left.
    - intros x Hx. apply (find_none _ _ Hf). apply list_elem_of_In. exact Hx. }
  assert (Hdj : is_dirty_at regs j = true).
  { destruct (find (is_dirty_at regs) pre) as [x|] eqn:Hf.
    - injection Hfirst as ->. apply find_some in Hf as [_ Hd]. exact Hd.
    - cbn [find] in Hfirst. destruct (is_dirty_at regs j) eqn:Hd; [reflexivity|].
      apply find_some in Hfirst as [Hin _]. apply list_elem_of_In in Hin.
      contradiction. }
  unfold dirty_in_order. rewrite Hsplit, Hnext, !filter_app.
  rewrite (filter_none _ pre) by (intros x Hx; rewrite (Hpre x Hx); discriminate).
  rewrite filter_cons_True by exact Hdj. cbn [app]. f_equal.
  rewrite (filter_none _ pre).
  2:{ intros x Hx. rewrite is_dirty_at_insert by exact Hj.
      destruct (decide (x = j)); [congruence|].
      rewrite (Hpre x Hx). discriminate. }
  rewrite (filter_none _ [j]).
  2:{ intros x Hx. apply list_elem_of_singleton in Hx as ->.
      rewrite is_dirty_at_insert by exact Hj.
      destruct (decide (j = j)); congruence. }
  rewrite !app_nil_r. apply filter_ext_in. intros x Hx.
  rewrite is_dirty_at_insert by exact Hj.
  destruct (decide (x = j)) as [->|_]; [contradiction | reflexivity].
Qed.

Lemma serve_one_first (s : State) :
  state_ok s -> g_nI2Cregister s = 0 ->
  match first_dirty (g_anControllers s) (Z.to_nat (g_nLastRead s)) with
  | None => serve_one s = Ok (0, [], writeInterrupt HIGH s)
  | Some j =>
      exists c bytes s2,
        g_anControllers s !! j = Some c /\ dirty c = true /\
        serve_one s = Ok (Z.of_nat j + 1, bytes, s2) /\
        g_anControllers s2 =
          <[j := set_dirty false (snd (getValue c))]> (g_anControllers s) /\
        g_nLastRead s2 = Z.of_nat j + 1 /\
        g_nI2Cregister s2 = 0
  end.
Proof.
  intros [Hok Hcur] Hsel. assert (HM : MAX_CONTROLLERS = 144) by reflexivity.
  assert (Hidle : onI2Crequest s =
            match first_dirty (g_anControllers s) (Z.to_nat (g_nLastRead s)) with
            | Some j => Ok ([Z.of_nat j + 1], writeInterrupt LOW s)
            | None => Ok ([0], writeInterrupt HIGH s)
            end).
  { unfold onI2Crequest. rewrite Hsel. cbn [Z.eqb negb].
    rewrite getDirty_correct by assumption. destruct (first_dirty _ _); reflexivity. }
  unfold serve_one. rewrite Hidle.
  destruct (first_dirty _ _) as [j|] eqn:Hfirst; cbn [mbind Res_bind]; [|reflexivity].
  apply first_dirty_Some in Hfirst as [c [Hc Hd]].
  pose proof (lookup_lt_Some _ _ _ Hc) as Hj. unfold table_ok in Hok.
  destruct (Z.eqb_spec (Z.of_nat j + 1) 0) as [H0|_]; [lia|].
  assert (Hrecv : onI2Creceive 1 [Z.of_nat j + 1] (writeInterrupt LOW s) =
                  mkState (Z.of_nat j + 1) (Z.of_nat j + 1) (g_anControllers s) LOW).
  { unfold onI2Creceive. cbn. rewrite u8_small by lia. reflexivity. }
  rewrite Hrecv.
  destruct (onI2Crequest_value
              (mkState (Z.of_nat j + 1) (Z.of_nat j + 1) (g_anControllers s) LOW)
              (Z.of_nat j + 1) c)
    as [k' [s2 [_ [Hregs [Hlast [_ Hreq]]]]]];
    [exact Hok | cbn; lia | lia | reflexivity
    | cbn; replace (Z.to_nat (Z.of_nat j + 1 - 1)) with j by lia; exact Hc |].
  rewrite Hreq. cbn [mbind Res_bind].
  replace (Z.to_nat (Z.of_nat j + 1 - 1)) with j in Hregs by lia.
  eexists c, _, (set_register 0 s2). repeat split; try assumption; reflexivity.
Qed.

(** X17. The master's exchanges follow the scan order: it reads the dirty
    records in the order [scan_order] gives them from the cursor on, each
    read moving the cursor behind the record just read, so that no record
    is read a second time before every other dirty record has had its
    turn. *)
Theorem serve_follows_scan_order (n : nat) :
  forall s : State,
    state_ok s -> g_nI2Cregister s = 0 ->
    (dirty_count (g_anControllers s) < n)%nat ->
    exists s',
      serve n s =
      Ok ((fun j : nat => Z.of_nat j + 1) <$>
            dirty_in_order (g_anControllers s) (scan_order (Z.to_nat (g_nLastRead s))),
          s').
Proof.
  induction n as [|n IH]; intros s Hs Hsel Hcount; [lia|].
  pose proof Hs as [Hok Hcur]. assert (HM : MAX_CONTROLLERS = 144) by reflexivity.
  unfold table_ok in Hok. cbn [serve].
  pose proof (serve_one_first s Hs Hsel) as H1.
  destruct (first_dirty _ _) as [j|] eqn:Hfirst.
  - destruct H1 as [c [bytes [s2 [Hc [Hd [H [Hregs [Hlast Hsel2]]]]]]]].
    pose proof (lookup_lt_Some _ _ _ Hc) as Hj.
    rewrite H. cbn [mbind Res_bind].
    destruct (Z.eqb_spec (Z.of_nat j + 1) 0) as [H0|_]; [lia|].
    destruct (IH s2) as [s' Hserve].
    { split; [|lia]. unfold table_ok. rewrite Hregs, length_insert. lia. }
    { exact Hsel2. }
    { rewrite Hregs.
      pose proof (dirty_count_insert_clean (g_anControllers s) j c
                    (set_dirty false (snd (getValue c))) Hc Hd eq_refl). lia. }
    rewrite Hserve. cbn [mbind Res_bind]. exists s'. f_equal. f_equal.
    rewrite (dirty_in_order_step (g_anControllers s) (Z.to_nat (g_nLastRead s)) j
               (set_dirty false (snd (getValue c)))); try lia;
      [|exact Hfirst|reflexivity].
    rewrite fmap_cons. f_equal. rewrite Hregs, Hlast.
    replace (Z.to_nat (Z.of_nat j + 1)) with (S j) by lia. reflexivity.
  - rewrite H1. cbn [mbind Res_bind Z.eqb]. eexists. f_equal. f_equal.
    unfold dirty_in_order. rewrite filter_none; [reflexivity|].
    intros x Hx. unfold first_dirty in Hfirst.
    rewrite (find_none _ _ Hfirst x); [discriminate|].
    apply list_elem_of_In. exact Hx.
Qed.

Lemma serve_follows_scan_order_witness :
  exists s', serve 4 (mkState 100 0 three_changes LOW) = Ok ([111; 4; 71], s').
Proof.
  apply (serve_follows_scan_order 4 (mkState 100 0 three_changes LOW)).
  - split; [reflexivity | closed_arith].
  - reflexivity.
  - vm_compute. lia.
Defined.

(** ** Round trip of a value over the bus *)

Lemma s16_range (z : Z) : -32768 <= s16 z < 32768.
Proof. unfold s16. pose proof (Z.mod_pos_bound (z + 32768) 65536). lia. Qed.

(** X14. Selecting the register of a controller and requesting its value, from
    any state of the device: the two bytes of the response, read as a
    little-endian signed 16-bit number, are the value of the read
    transform exactly when that value fits in 16 bits. *)
Theorem value_read_round_trip (s : State) (R : Z) (c : Controller) :
  table_ok (g_anControllers s) ->
  1 <= R <= MAX_CONTROLLERS ->
  g_anControllers s !! Z.to_nat (R - 1) = Some c ->
  exists bytes s',
    onI2Crequest (onI2Creceive 1 [R] s) = Ok (bytes, s') /\
    length bytes = 2%nat /\
    (decode_le16 bytes = Some (fst (getValue c)) <->
     -32768 <= fst (getValue c) < 32768).
Proof.
  intros Hok HR Hc. assert (HM : MAX_CONTROLLERS = 144) by reflexivity.
  assert (Hrecv : onI2Creceive 1 [R] s =
                  mkState R R (g_anControllers s) (InterruptLevel s)).
  { unfold onI2Creceive. cbn. rewrite u8_small by lia. reflexivity. }
  rewrite Hrecv.
  destruct (onI2Crequest_value (mkState R R (g_anControllers s) (InterruptLevel s))
              R c Hok ltac:(cbn; lia) HR eq_refl Hc)
    as [k [s1 [_ [_ [_ [_ Hreq]]]]]].
  eexists _, _. split; [exact Hreq|]. split; [reflexivity|].
  pose proof (le16_bytes (fst (getValue c))) as [Hlo [Hhi Hdec]].
  rewrite <- Hlo, <- Hhi, Hdec. split.
  - intros H. injection H as H. rewrite <- H. apply s16_range.
  - intros H. rewrite s16_small by exact H. reflexivity.
Qed.

Lemma value_read_round_trip_witness :
  exists bytes s',
    onI2Crequest (onI2Creceive 1 [111] (mkState 0 0 three_changes LOW)) =
      Ok (bytes, s') /\
    length bytes = 2%nat /\
    (decode_le16 bytes = Some (-2) <-> -32768 <= -2 < 32768).
Proof.
  apply (value_read_round_trip (mkState 0 0 three_changes LOW) 111
           (mkController true (-2) 23 0 CONTROLLER_TYPE_ENCODER 80)).
  - reflexivity.
  - closed_arith.
  - reflexivity.
Defined.

(** ** Each pass works on records of its own kind *)

(** X5. On a table whose kinds are the ones [setup] assigns, a record that a
    pass changes has the kind that pass is written for. *)
Theorem passes_respect_kinds (w : Inputs) (regs : list Controller) :
  table_ok regs ->
  (forall i c, regs !! i = Some c -> type c = kind_of_index i) ->
  exists r1 r2 r3,
    readAdc w regs = Ok r1 /\ readSwitch w regs = Ok r2 /\ readEncoder w regs = Ok r3 /\
    forall i c c', regs !! i = Some c ->
      (r1 !! i = Some c' -> c' <> c -> type c = CONTROLLER_TYPE_POT) /\
      (r2 !! i = Some c' -> c' <> c -> type c = CONTROLLER_TYPE_SWITCH) /\
      (r3 !! i = Some c' -> c' <> c -> type c = CONTROLLER_TYPE_ENCODER).
Proof.
  intros Hok Hkinds.
  destruct (readAdc_ok w regs Hok) as [r1 [H1 _]].
  destruct (readSwitch_ok w regs Hok) as [r2 [H2 _]].
  destruct (readEncoder_ok w regs Hok) as [r3 [H3 _]].
  exists r1, r2, r3. repeat split; try assumption.
  - intros Hc' Hne. apply readAdc_effect in H1 as [_ Hout].
    rewrite (Hkinds i c H). unfold kind_of_index.
    change (Z.to_nat SWITCH_START) with 64%nat.
    destruct (Nat.ltb_spec i 64) as [_|Hge]; [reflexivity|].
    exfalso. apply Hne. rewrite Hout, H in Hc'.
    + injection Hc' as <-. reflexivity.
    + right. change (Z.to_nat (POT_START + POTS)) with 64%nat. exact Hge.
  - intros Hc' Hne. apply readSwitch_effect in H2 as [_ Hout].
    rewrite (Hkinds i c H). unfold kind_of_index.
    change (Z.to_nat SWITCH_START) with 64%nat.
    change (Z.to_nat ENCODER_START) with 104%nat.
    change (Z.to_nat (SWITCH_START + SWITCHES)) with 104%nat in Hout.
    destruct (Nat.ltb_spec i 64) as [Hlt|Hge].
    + exfalso. apply Hne. rewrite Hout, H in Hc' by (left; exact Hlt).
      injection Hc' as <-. reflexivity.
    + destruct (Nat.ltb_spec i 104) as [_|Hge2]; [reflexivity|].
      exfalso. apply Hne. rewrite Hout, H in Hc' by (right; exact Hge2).
      injection Hc' as <-. reflexivity.
  - intros Hc' Hne. apply readEncoder_effect in H3 as [_ Hout].
    rewrite (Hkinds i c H). unfold kind_of_index.
    change (Z.to_nat SWITCH_START) with 64%nat.
    change (Z.to_nat ENCODER_START) with 104%nat in *.
    destruct (Nat.ltb_spec i 64) as [Hlt|Hge].
    + exfalso. apply Hne. rewrite Hout, H in Hc' by (left; lia).
      injection Hc' as <-. reflexivity.
    + destruct (Nat.ltb_spec i 104) as [Hlt|_]; [|reflexivity].
      exfalso. apply Hne. rewrite Hout, H in Hc' by (left; exact Hlt).
      injection Hc' as <-. reflexivity.
Qed.

Lemma init_controllers_kinds (i : nat) (c : Controller) :
  init_controllers !! i = Some c -> type c = kind_of_index i.
Proof.
  unfold init_controllers, kind_of_index.
  change (Z.to_nat MAX_POTS) with 64%nat. change (Z.to_nat MAX_SWITCHES) with 40%nat.
  change (Z.to_nat MAX_ENCODERS) with 40%nat.
  change (Z.to_nat SWITCH_START) with 64%nat.
  change (Z.to_nat ENCODER_START) with 104%nat.
  intros Hc.
  destruct (Nat.ltb_spec i 64) as [Hlt|Hge].
  - rewrite lookup_app_l in Hc by (rewrite repeat_length; exact Hlt).
    apply list_elem_of_lookup_2, list_elem_of_In, repeat_spec in Hc. subst c.
    reflexivity.
  - rewrite lookup_app_r in Hc by (rewrite repeat_length; exact Hge).
    rewrite repeat_length in Hc.
    destruct (Nat.ltb_spec i 104) as [Hlt|Hge2].
    + rewrite lookup_app_l in Hc by (rewrite repeat_length; lia).
      apply list_elem_of_lookup_2, list_elem_of_In, repeat_spec in Hc. subst c.
      reflexivity.
    + rewrite lookup_app_r in Hc by (rewrite repeat_length; lia).
      apply list_elem_of_lookup_2, list_elem_of_In, repeat_spec in Hc. subst c.
      reflexivity.
Qed.

Lemma passes_respect_kinds_witness :
  exists r1 r2 r3,
    readAdc (two_encoders_world 1000) init_controllers = Ok r1 /\
    readSwitch (two_encoders_world 1000) init_controllers = Ok r2 /\
    readEncoder (two_encoders_world 1000) init_controllers = Ok r3 /\
    forall i c c', init_controllers !! i = Some c ->
      (r1 !! i = Some c' -> c' <> c -> type c = CONTROLLER_TYPE_POT) /\
      (r2 !! i = Some c' -> c' <> c -> type c = CONTROLLER_TYPE_SWITCH) /\
      (r3 !! i = Some c' -> c' <> c -> type c = CONTROLLER_TYPE_ENCODER).
Proof.
  apply (passes_respect_kinds (two_encoders_world 1000) init_controllers).
  - reflexivity.
  - exact init_controllers_kinds.
Defined.

(** ** Polling without reading *)

Lemma getDirty_after_write (level : Z) (s : State) :
  getDirty (writeInterrupt level s) =
  match getDirty s with
  | Ok (k, s') => Ok (k, s')
  | OutOfBounds j => OutOfBounds j
  end.
Proof.
  unfold getDirty. cbn [g_anControllers g_nLastRead writeInterrupt].
  destruct (for_loop _ (g_nLastRead s) _ _ _) as [u|k|j]; [|reflexivity|reflexivity].
  destruct (for_loop _ 0 _ _ _) as [u'|k|j]; reflexivity.
Qed.

(** X13. A request with no register selected does not advance the cursor: as
    long as the master only polls and nothing changes, every poll gives
    the same answer and leaves the state as the first poll left it. *)
Theorem idle_request_repeats (s s1 : State) (out : list Z) :
  g_nI2Cregister s = 0 ->
  onI2Crequest s = Ok (out, s1) ->
  onI2Crequest s1 = Ok (out, s1).
Proof.
  intros Hsel. unfold onI2Crequest. rewrite Hsel. cbn [Z.eqb negb].
  destruct (getDirty s) as [[k s']|j] eqn:Hg; cbn [mbind Res_bind]; [|discriminate].
  intros H. injection H as <- <-.
  pose proof Hg as Hst. apply getDirty_state in Hst as [level Hs'].
  assert (Hsel' : g_nI2Cregister s' = 0) by (rewrite Hs'; exact Hsel).
  rewrite Hsel'. cbn [Z.eqb negb].
  rewrite Hs' at 1. rewrite getDirty_after_write, Hg. reflexivity.
Qed.

Lemma idle_request_repeats_witness :
  onI2Crequest (mkState 100 0 three_changes LOW) =
    Ok ([111], mkState 100 0 three_changes LOW).
Proof.
  apply (idle_request_repeats (mkState 100 0 three_changes HIGH)
           (mkState 100 0 three_changes LOW) [111]); reflexivity.
Defined.
